(** * CMG2npy: the report pipeline of postCMGsim-light

    A shallow embedding of [src/CMG2npy.py]: the request writer
    [generate_CMG_rwd], the report invoker [run_CMG_rwd_report] and the
    report parser and array assembler [CMG_rwo2npy].

    Text is modelled as [string] (one byte per character; the characters of
    the ASCII range behave as in Python, the others are neither digits nor
    white space).  Floating-point numbers are kept abstract: the development
    is parametric in the type of array elements, in its zero and in the
    conversion [float] from a token.  Integers and arrays are unbounded:
    the limits of [int] on very long digit runs and of [np.zeros] on very
    large shapes are not modelled, nor are failures of the operating system
    calls other than a missing or misplaced path. *)

From Stdlib Require Import String Ascii ZArith List Lia Bool DecimalString.
From Stdlib Require DecimalNat.
From stdpp Require Import base option list gmap strings.

Local Open Scope nat_scope.

(** ** Python's [str] operations used by the parser *)

Module Str.

(** [c.isspace()] on the ASCII range: TAB, LF, VT, FF, CR, the four
    separators 0x1c-0x1f, and the blank. *)
Definition isspace (c : ascii) : bool :=
  let n := nat_of_ascii c in
  ((9 <=? n) && (n <=? 13)) || ((28 <=? n) && (n <=? 32)).

(** The class [\d] on the ASCII range. *)
Definition isdigit (c : ascii) : bool :=
  let n := nat_of_ascii c in (48 <=? n) && (n <=? 57).

Fixpoint lstrip (s : string) : string :=
  match s with
  | String c s' => if isspace c then lstrip s' else s
  | EmptyString => EmptyString
  end.

Fixpoint rstrip (s : string) : string :=
  match s with
  | EmptyString => EmptyString
  | String c s' =>
      match rstrip s' with
      | EmptyString => if isspace c then EmptyString else String c EmptyString
      | r => String c r
      end
  end.

(** [s.strip()] *)
Definition strip (s : string) : string := rstrip (lstrip s).

(** [s.startswith(p)] *)
Definition startswith (s p : string) : bool := String.prefix p s.

(** The text after a literal prefix, when the prefix is there. *)
Fixpoint after (p s : string) : option string :=
  match p, s with
  | EmptyString, _ => Some s
  | String a p', String b s' => if Ascii.eqb a b then after p' s' else None
  | String _ _, EmptyString => None
  end.

(** The longest prefix whose characters satisfy [f], and the rest. *)
Fixpoint span (f : ascii -> bool) (s : string) : string * string :=
  match s with
  | String c s' =>
      if f c then let '(a, b) := span f s' in (String c a, b)
      else (EmptyString, s)
  | EmptyString => (EmptyString, EmptyString)
  end.

Definition is_empty (s : string) : bool :=
  match s with EmptyString => true | _ => false end.

(** [s.split()]: the maximal runs of characters that are not white space. *)
Fixpoint split_go (tok : string) (s : string) : list string :=
  match s with
  | EmptyString => if is_empty tok then [] else [tok]
  | String c s' =>
      if isspace c
      then (if is_empty tok then split_go "" s' else tok :: split_go "" s')
      else split_go (tok +:+ String c "") s'
  end.

Definition split (s : string) : list string := split_go "" s.

(** [int(s)] for a run of decimal digits. *)
Fixpoint int_go (acc : nat) (s : string) : nat :=
  match s with
  | EmptyString => acc
  | String c s' => int_go (10 * acc + (nat_of_ascii c - 48)) s'
  end.

Definition int (s : string) : nat := int_go 0 s.

(** The last character satisfies [f]. *)
Fixpoint ends_with (f : ascii -> bool) (s : string) : bool :=
  match s with
  | EmptyString => false
  | String c EmptyString => f c
  | String _ s' => ends_with f s'
  end.

End Str.

(** ** The two regular expressions

    [re.match] anchors at the start of the line and not at its end.  Every
    run of digits of the two patterns is followed by a character that is
    not a digit, so the longest run is the only one that can match. *)

(** The number after the marker, [(\d+(?:\.\d+)?)], and the text after
    it. *)
Definition time_number (r0 : string) : option (string * string) :=
  let '(ip, r1) := Str.span Str.isdigit r0 in
  if Str.is_empty ip then None else
  match r1 with
  | String "."%char r1' =>
      let '(fp, r1'') := Str.span Str.isdigit r1' in
      if Str.is_empty fp then Some (ip, r1)
      else Some (ip +:+ "." +:+ fp, r1'')
  | _ => Some (ip, r1)
  end.

Definition not_newline (c : ascii) : bool :=
  negb (Nat.eqb (nat_of_ascii c) 10).

(** [re.match(r'\*\*  TIME = (\d+(?:\.\d+)?)\s+(.+)', line)]: the groups
    (number literal, label).  After the number, [\s+] takes the whole run of
    white space and [(.+)] the text up to a line break; it cannot give a
    character back to [(.+)] when nothing follows the run, but that does
    not happen on a stripped line ([stripped_marker_label] below). *)
Definition match_time (line : string) : option (string * string) :=
  match Str.after "**  TIME = " line with
  | None => None
  | Some r0 =>
      match time_number r0 with
      | None => None
      | Some (num, r2) =>
          let '(ws, r3) := Str.span Str.isspace r2 in
          if Str.is_empty ws then None
          else if Str.is_empty r3 then None
          else Some (num, (Str.span not_newline r3).1)
      end
  end.

(** [re.match(r'\*\* K = (\d+), J = (\d+)', line)]: the groups as integers. *)
Definition match_header (line : string) : option (nat * nat) :=
  match Str.after "** K = " line with
  | None => None
  | Some r0 =>
      let '(kd, r1) := Str.span Str.isdigit r0 in
      if Str.is_empty kd then None else
      match Str.after ", J = " r1 with
      | None => None
      | Some r2 =>
          let '(jd, _) := Str.span Str.isdigit r2 in
          if Str.is_empty jd then None
          else Some (Str.int kd, Str.int jd)
      end
  end.

(** ** Exceptions, results and observable effects *)

Inductive exn :=
  | FileNotFoundError
  | IsADirectoryError
  | ValueError
  | IndexError
  | UnboundLocalError.

Inductive result (A : Type) :=
  | Ok (a : A)
  | Raise (e : exn).
Arguments Ok {A} a.
Arguments Raise {A} e.

(** What [print] writes, before formatting. *)
Inductive message :=
  | MsgTimeStep (time date : string)
  | MsgFound (n : nat)
  | MsgGrid (n_i n_j n_k n_time : nat)
  | MsgWarning (expected got : nat) (k j : Z) (time : string)
  | MsgNotImplemented (cmg_version : string).

(** The file system as the three functions read it. *)
Inductive node :=
  | Dir
  | File (lines : list string).

Definition FS := string -> option node.

Definition fs_is_dir (fs : FS) (p : string) : bool :=
  match fs p with Some Dir => true | _ => false end.
Definition fs_is_file (fs : FS) (p : string) : bool :=
  match fs p with Some (File _) => true | _ => false end.
Definition fs_exists (fs : FS) (p : string) : bool :=
  match fs p with Some _ => true | None => false end.

(** [open(p, 'r')] followed by iteration over the lines. *)
Definition fs_open (fs : FS) (p : string) : result (list string) :=
  match fs p with
  | Some (File lines) => Ok lines
  | Some Dir => Raise IsADirectoryError
  | None => Raise FileNotFoundError
  end.

(** ** Sample inputs

    A conversion that agrees with [float] on runs of decimal digits (the
    only tokens of the sample reports), a join with a slash, and a file
    system that holds one case in the directory [d]. *)

Definition float_of_digits (s : string) : option Z :=
  let '(d, r) := Str.span Str.isdigit s in
  if Str.is_empty d || negb (Str.is_empty r) then None
  else Some (Z.of_nat (Str.int d)).

Definition slash_join (a b : string) : string := a +:+ "/" +:+ b.

Definition sample_fs (report : list string) : FS := fun p =>
  if String.eqb p "d" then Some Dir
  else if String.eqb p "d/c.sr3" then Some (File [])
  else if String.eqb p "d/c.rwd" then Some (File [])
  else if String.eqb p "d/c_PRES.rwo" then Some (File report)
  else None.

Definition empty_fs : FS := fun _ => None.

(** Two time steps, the first without cell blocks. *)
Definition report_empty_step : list string :=
  ["**  TIME = 0 2020-JAN-01"; "**  TIME = 31 2020-FEB-01";
   "** K = 1, J = 1"; " 5 6 "]%string.

(** The same K,J header twice in one time step. *)
Definition report_twice : list string :=
  ["**  TIME = 0 2020-JAN-01"; "** K = 1, J = 1"; "1 2";
   "** K = 1, J = 1"; "3 4"]%string.

(** A cell block of two values and then, under the same header, one of
    three. *)
Definition report_mismatch : list string :=
  ["**  TIME = 0 2020-JAN-01"; "** K = 1, J = 1"; "1 2";
   "** K = 1, J = 1"; "3 4 5"]%string.

(** A first cell block without values. *)
Definition report_first_empty : list string :=
  ["**  TIME = 0 2020-JAN-01"; "** K = 1, J = 1"; "** K = 2, J = 1";
   "1 2 3"]%string.

(** A time marker without label: the time step is committed and stays
    open. *)
Definition report_bad_marker : list string :=
  ["**  TIME = 0 2020-JAN-01"; "** K = 1, J = 1"; "1 2";
   "**  TIME = 31"; "3"]%string.

(** Two time steps of two cell blocks each. *)
Definition report_two_steps : list string :=
  ["RESULTS SIMULATOR GEM"; "**  TIME = 0 2020-JAN-01";
   "** K = 1, J = 1"; "1 2 3"; "** K = 2, J = 1"; "4 5 6";
   "**  TIME = 31 2020-FEB-01";
   "** K = 1, J = 1"; "7 8 9"; "** K = 2, J = 1"; "10 11"; "12"]%string.

(** A directory that holds the archive of case [c] and nothing else. *)
Definition archive_fs : FS := fun p =>
  if String.eqb p "d" then Some Dir
  else if String.eqb p "d/c.sr3" then Some (File [])
  else None.

(** A time step with one cell block of two data lines. *)
Definition report_one_block : list string :=
  ["**  TIME = 0 2020-JAN-01"; "** K = 2, J = 1"; "1 2"; "3"]%string.

(** A data line with a token that is not a number. *)
Definition report_bad_token : list string :=
  ["**  TIME = 0 2020-JAN-01"; "** K = 1, J = 1"; "1 2 x"; "3 4"]%string.

(** A header and values before the first time marker. *)
Definition report_early_block : list string :=
  ["RESULTS SIMULATOR GEM"; "** K = 3, J = 3"; "9 9";
   "**  TIME = 0 2020-JAN-01"; "** K = 1, J = 1"; "1 2"]%string.

(** ** The parser state

    The dictionaries built at a K,J header are shared between
    [current_data] and the copies appended to [pressure_data]: they live in
    a store, and the lists hold their addresses. *)

Abbreviation loc := nat (only parsing).

Section CMG2npy.

(** Array elements, [0.0], and [float(token)] ([None] for ValueError). *)
Variable float_t : Type.
Variable zero : float_t.
Variable float : string -> option float_t.

(** Joining a directory and a file name ([os.path.join], [Path / name]). *)
Variable joinpath : string -> string -> string.

(** [{'k': .., 'j': .., 'values': [..]}] *)
Record cell_data := CellData {
  cell_k : nat;
  cell_j : nat;
  cell_values : list float_t
}.

(** [{'time': .., 'date': .., 'data': [..]}]; the time is kept as the
    decimal literal that [float] converts, which cannot fail. *)
Record time_data := TimeData {
  td_time : string;
  td_date : string;
  td_data : list loc
}.

Record pstate := PState {
  time_values : list string;
  time_dates : list string;
  pressure_data : list time_data;
  current_time : option string;
  current_k : option nat;
  current_j : option nat;
  current_data : list loc;
  store : list cell_data;
  stdout : list message
}.

Definition init : pstate :=
  PState [] [] [] None None None [] [] [].

(** [pressure_data.append({... 'data': current_data.copy()})], guarded by
    [current_time is not None and current_data]. *)
Definition commit (st : pstate) : pstate :=
  match current_time st, current_data st with
  | Some t, _ :: _ =>
      PState (time_values st) (time_dates st)
        (pressure_data st ++
           [TimeData t (List.last (time_dates st) "") (current_data st)])
        (current_time st) (current_k st) (current_j st)
        (current_data st) (store st) (stdout st)
  | _, _ => st
  end.

(** The body of [if match:] at a time marker. *)
Definition open_time (show_info : bool) (t d : string) (st : pstate) : pstate :=
  PState (time_values st ++ [t]) (time_dates st ++ [d])
    (pressure_data st) (Some t) (current_k st) (current_j st)
    [] (store st)
    (if show_info then stdout st ++ [MsgTimeStep t d] else stdout st).

(** The body of [if match:] at a K,J header: a new dictionary is
    allocated and its address appended to [current_data]. *)
Definition open_cell (k j : nat) (st : pstate) : pstate :=
  PState (time_values st) (time_dates st) (pressure_data st)
    (current_time st) (Some k) (Some j)
    (current_data st ++ [length (store st)])
    (store st ++ [CellData k j []])
    (stdout st).

Definition extend (vs : list float_t) (c : cell_data) : cell_data :=
  CellData (cell_k c) (cell_j c) (cell_values c ++ vs).

(** [current_data[-1]['values'].extend(values)], guarded by
    [current_data]. *)
Definition add_values (vs : list float_t) (st : pstate) : pstate :=
  match last (current_data st) with
  | Some a =>
      PState (time_values st) (time_dates st) (pressure_data st)
        (current_time st) (current_k st) (current_j st)
        (current_data st)
        (alter (extend vs) a (store st))
        (stdout st)
  | None => st
  end.

(** The test of the third branch. *)
Definition is_data_line (property line : string) : bool :=
  negb (Str.is_empty line)
  && negb (Str.startswith line "**")
  && negb (Str.startswith line "RESULTS")
  && negb (Str.startswith line property).

(** One iteration of the loop over the lines of the file. *)
Definition process_line (property : string) (show_info : bool)
    (st : pstate) (raw : string) : pstate :=
  let line := Str.strip raw in
  if Str.startswith line "**  TIME =" then
    let st1 := commit st in
    match match_time line with
    | Some (t, d) => open_time show_info t d st1
    | None => st1
    end
  else if Str.startswith line "** K =" then
    match match_header line with
    | Some (k, j) => open_cell k j st
    | None => st
    end
  else if is_data_line property line then
    match mapM float (Str.split line) with
    | Some vs => add_values vs st
    | None => st
    end
  else st.

Definition scan (property : string) (show_info : bool)
    (st : pstate) (lines : list string) : pstate :=
  foldl (process_line property show_info) st lines.

(** The state after the loop, the last commit and the summary print. *)
Definition parse (property : string) (show_info : bool)
    (lines : list string) : pstate :=
  let st := commit (scan property show_info init lines) in
  if show_info
  then PState (time_values st) (time_dates st) (pressure_data st)
         (current_time st) (current_k st) (current_j st)
         (current_data st) (store st)
         (stdout st ++ [MsgFound (length (time_values st))])
  else st.

#[local] Instance cell_data_inhabited : Inhabited cell_data :=
  populate (CellData 0 0 []).

(** The cell blocks of a committed time step, read through the store. *)
Definition cells (h : list cell_data) (td : time_data) : list cell_data :=
  (fun a => h !!! a) <$> td_data td.

(** The committed time steps with their cell blocks, in commit order. *)
Definition committed (st : pstate) : list (string * list cell_data) :=
  (fun td => (td_time td, cells (store st) td)) <$> pressure_data st.


(** ** Grid dimensions *)

(** The body of the inner loop that collects [k_values], [j_values] and
    [i_count]. *)
Definition scan_cell (acc : gset nat * gset nat * nat) (c : cell_data)
    : gset nat * gset nat * nat :=
  let '(k_values, j_values, i_count) := acc in
  ({[cell_k c]} ∪ k_values, {[cell_j c]} ∪ j_values,
   if decide (i_count = 0) then length (cell_values c) else i_count).

Definition grid_scan (pd : list (string * list cell_data))
    : gset nat * gset nat * nat :=
  foldl (fun acc td => foldl scan_cell acc td.2) (∅, ∅, 0) pd.

(** [max(s)] of a set: ValueError when it is empty. *)
Definition py_max (s : gset nat) : result nat :=
  if decide (s = ∅) then Raise ValueError else Ok (max_list (elements s)).

(** [(n_i, n_j, n_k, n_time)], in the order the code assigns them. *)
Definition infer_dims (st : pstate) : result (nat * nat * nat * nat) :=
  let '(k_values, j_values, i_count) := grid_scan (committed st) in
  match py_max k_values with
  | Raise e => Raise e
  | Ok n_k =>
      match py_max j_values with
      | Raise e => Raise e
      | Ok n_j => Ok (i_count, n_j, n_k, length (time_values st))
      end
  end.

(** ** The dense array *)

(** A four-dimensional array: its shape and its items; an index is valid
    below the shape. *)
Record ndarray := NdArray {
  shape : nat * nat * nat * nat;
  item : nat -> nat -> nat -> nat -> float_t
}.

(** [np.zeros(sh)] *)
Definition zeros (sh : nat * nat * nat * nat) : ndarray :=
  NdArray sh (fun _ _ _ _ => zero).

(** An integer index on an axis of size [n]: negative indices count from
    the end, anything else out of range is an IndexError. *)
Definition norm_index (n : nat) (i : Z) : option nat :=
  if decide (0 <= i < Z.of_nat n)%Z then Some (Z.to_nat i)
  else if decide (- Z.of_nat n <= i < 0)%Z then Some (Z.to_nat (i + Z.of_nat n))
  else None.

(** [a[:, j, k, t] = vals] for [vals] as long as the first axis (the only
    case the assembly reaches). *)
Definition setitem (a : ndarray) (j k t : Z) (vals : list float_t)
    : result ndarray :=
  let '(n_i, n_j, n_k, n_time) := shape a in
  match norm_index n_j j, norm_index n_k k, norm_index n_time t with
  | Some j', Some k', Some t' =>
      if decide (length vals = n_i) then
        Ok (NdArray (shape a)
              (fun i j0 k0 t0 =>
                 if decide (j0 = j' ∧ k0 = k' ∧ t0 = t')
                 then default zero (vals !! i)
                 else item a i j0 k0 t0))
      else Raise ValueError
  | _, _, _ => Raise IndexError
  end.

(** [a[:, j, k, t]] for indices inside the shape, as a list. *)
Definition getslice (a : ndarray) (j k t : nat) : list float_t :=
  (fun i => item a i j k t) <$> seq 0 (shape a).1.1.1.

(** ** Filling the array *)

(** The body of the inner loop of the assembly, on the array so far and
    the text printed so far; an exception ends the loops. *)
Definition fill_cell (n_i time_idx : nat) (time : string)
    (acc : result ndarray * list message) (c : cell_data)
    : result ndarray * list message :=
  match acc with
  | (Raise e, out) => (Raise e, out)
  | (Ok a, out) =>
      let k := (Z.of_nat (cell_k c) - 1)%Z in
      let j := (Z.of_nat (cell_j c) - 1)%Z in
      if decide (length (cell_values c) = n_i)
      then (setitem a j k (Z.of_nat time_idx) (cell_values c), out)
      else (Ok a,
            out ++ [MsgWarning n_i (length (cell_values c))
                      (k + 1) (j + 1) time])
  end.

(** The outer loop, over [enumerate(pressure_data)] from [time_idx] on. *)
Fixpoint fill (n_i time_idx : nat) (pd : list (string * list cell_data))
    (acc : result ndarray * list message) : result ndarray * list message :=
  match pd with
  | [] => acc
  | (time, cs) :: pd' =>
      fill n_i (S time_idx) pd' (foldl (fill_cell n_i time_idx time) acc cs)
  end.

(** From "Determine grid dimensions" to the filled array. *)
Definition assemble (show_info : bool) (st : pstate)
    : result ndarray * list message :=
  match infer_dims st with
  | Raise e => (Raise e, stdout st)
  | Ok (n_i, n_j, n_k, n_time) =>
      let out :=
        if show_info then stdout st ++ [MsgGrid n_i n_j n_k n_time]
        else stdout st in
      fill n_i 0 (committed st) (Ok (zeros (n_i, n_j, n_k, n_time)), out)
  end.

(** ** The three stages, with their effects on the outside world *)

Inductive event :=
  | EvPrint (m : message)
  | EvMkdir (path : string)
  | EvWrite (path : string) (chunks : list string)
  | EvSystem (cmd_line : string)
  | EvSave (path : string) (a : ndarray).

Definition has_side_effect (e : event) : bool :=
  match e with EvPrint _ => false | _ => true end.

Definition tab : string := String (ascii_of_nat 9) "".
Definition nl : string := String (ascii_of_nat 10) "".
Definition dq : string := String (ascii_of_nat 34) "".
Definition bs : string := String (ascii_of_nat 92) "".

(** [str(precision)] *)
Definition str_int (z : Z) : string := NilZero.string_of_int (Z.to_int z).

Definition generate_CMG_rwd (fs : FS) (sr3_folder_path case_name : string)
    (property : string) (is_gmc_property : bool) (precision : Z)
    : result unit * list event :=
  let sr3_folder := sr3_folder_path in
  if negb (fs_is_dir fs sr3_folder) then (Raise FileNotFoundError, [])
  else
    let case_file :=
      if is_gmc_property then joinpath sr3_folder (case_name +:+ ".gmch.sr3")
      else joinpath sr3_folder (case_name +:+ ".sr3") in
    if negb (fs_is_file fs case_file) then (Raise FileNotFoundError, [])
    else
      let rwo_folder := joinpath sr3_folder "rwo" in
      let rwd_file := joinpath sr3_folder (case_name +:+ ".rwd") in
      (Ok tt,
       [EvMkdir rwo_folder;
        EvWrite rwd_file
          [(if is_gmc_property
            then "*FILES " +:+ tab +:+ " '" +:+ case_name +:+ ".gmch.sr3' " +:+ nl
            else "*FILES " +:+ tab +:+ " '" +:+ case_name +:+ ".sr3' " +:+ nl);
           "*PRECISION " +:+ tab +:+ " " +:+ str_int precision +:+ " " +:+ nl;
           "*OUTPUT " +:+ tab +:+ " 'rwo" +:+ bs +:+ case_name +:+ "_"
             +:+ property +:+ ".rwo' " +:+ nl;
           "*PROPERTY-FOR " +:+ tab +:+ " '" +:+ property +:+ "' " +:+ tab
             +:+ " *ALL-TIMES " +:+ nl]]).

Definition Report_exe : string :=
  dq +:+ "C:" +:+ bs +:+ "Program Files" +:+ bs +:+ "CMG" +:+ bs +:+ "RESULTS" +:+ bs
     +:+ "2024.20" +:+ bs +:+ "Win_x64" +:+ bs +:+ "exe" +:+ bs +:+ "Report.exe" +:+ dq.

(** The locals [exe_path] and [cd_path] are bound in one branch only;
    reading an unbound local raises UnboundLocalError. *)
Definition run_CMG_rwd_report (fs : FS) (rwd_folder_path case_name : string)
    (cmg_version : string) : result unit * list event :=
  let rwd_folder := rwd_folder_path in
  if negb (fs_is_dir fs rwd_folder) then (Raise FileNotFoundError, [])
  else
    let rwd_file := joinpath rwd_folder (case_name +:+ ".rwd") in
    if negb (fs_is_file fs rwd_file) then (Raise FileNotFoundError, [])
    else
      let '(exe_path, cd_path, printed) :=
        if String.eqb cmg_version "ese-ts2win-v2024.20"
        then (Some Report_exe, Some rwd_folder, [])
        else (None, None, [EvPrint (MsgNotImplemented cmg_version)]) in
      match cd_path, exe_path with
      | Some cd, Some exe =>
          let cmd_line :=
            "cd " +:+ cd +:+ "  & " +:+ exe +:+ " -f " +:+ case_name +:+ ".rwd -o "
              +:+ case_name in
          (Ok tt, printed ++ [EvSystem cmd_line])
      | _, _ => (Raise UnboundLocalError, printed)
      end.

(** [os.path.join(rwo_folder_path, f"{case_name}_{property}.rwo")] *)
Definition rwo_file_path (rwo_folder_path case_name property : string)
    : string :=
  joinpath rwo_folder_path (case_name +:+ "_" +:+ property +:+ ".rwo").

(** [save_folder_path / f"{case_name}_{property}.npy"] *)
Definition save_file_path (save_folder_path case_name property : string)
    : string :=
  joinpath save_folder_path (case_name +:+ "_" +:+ property +:+ ".npy").

Definition CMG_rwo2npy (fs : FS) (rwo_folder_path case_name : string)
    (property : string) (is_save : bool) (save_folder_path : string)
    (show_info : bool) : result ndarray * list event :=
  if negb (fs_exists fs (rwo_file_path rwo_folder_path case_name property))
  then (Raise FileNotFoundError, [])
  else
    let made := [EvMkdir save_folder_path] in
    match fs_open fs (rwo_file_path rwo_folder_path case_name property) with
    | Raise e => (Raise e, made)
    | Ok lines =>
        match assemble show_info (parse property show_info lines) with
        | (Raise e, out) => (Raise e, made ++ (EvPrint <$> out))
        | (Ok sim_results, out) =>
            (Ok sim_results,
             made ++ (EvPrint <$> out) ++
               (if is_save
                then [EvSave (save_file_path save_folder_path case_name property)
                        sim_results]
                else []))
        end
    end.

(** A file system in which an entry lives in a directory. *)
Definition hierarchical (fs : FS) : Prop :=
  ∀ d f, fs_exists fs (joinpath d f) = true -> fs_is_dir fs d = true.

(** ** Classes of lines

    The tests of the loop body, named.  [marker_line]: the first branch is
    taken; [time_marker]: and the pattern matches; [header]: the second
    branch is taken and its pattern matches; [data_values]: the third
    branch is taken and every token converts. *)

Definition marker_line (raw : string) : bool :=
  Str.startswith (Str.strip raw) "**  TIME =".

Definition time_marker (raw : string) : bool :=
  marker_line raw && bool_decide (is_Some (match_time (Str.strip raw))).

Definition header (raw : string) : option (nat * nat) :=
  let line := Str.strip raw in
  if Str.startswith line "**  TIME =" then None
  else if Str.startswith line "** K =" then match_header line
  else None.

Definition data_values (property raw : string) : option (list float_t) :=
  let line := Str.strip raw in
  if Str.startswith line "**  TIME =" then None
  else if Str.startswith line "** K =" then None
  else if is_data_line property line then mapM float (Str.split line)
  else None.

(** The action of a line on the state. *)
Inductive action :=
  | AMarker (t d : string)
  | ABadMarker
  | AHeader (k j : nat)
  | AData (vs : list float_t)
  | ASkip.

Definition classify (property raw : string) : action :=
  if marker_line raw then
    match match_time (Str.strip raw) with
    | Some (t, d) => AMarker t d
    | None => ABadMarker
    end
  else
    match header raw with
    | Some (k, j) => AHeader k j
    | None =>
        match data_values property raw with
        | Some vs => AData vs
        | None => ASkip
        end
    end.

Definition exec (show_info : bool) (a : action) (st : pstate) : pstate :=
  match a with
  | AMarker t d => open_time show_info t d (commit st)
  | ABadMarker => commit st
  | AHeader k j => open_cell k j st
  | AData vs => add_values vs st
  | ASkip => st
  end.

(** ** Well-formed reports

    Every time-marker line carries a number and a label, and the indices
    of the headers are 1-based.  The assembly needs more to return: some
    time step must hold a cell block. *)

Definition markers_ok (lines : list string) : bool :=
  forallb (fun raw => implb (marker_line raw) (time_marker raw)) lines.

Definition headers_ok (lines : list string) : bool :=
  forallb (fun raw =>
             match header raw with
             | Some (k, j) => (1 <=? k) && (1 <=? j)
             | None => true
             end) lines.

Definition has_cell_block (lines : list string) : Prop :=
  ∃ l1 m l2 h l3,
    lines = l1 ++ m :: l2 ++ h :: l3 ∧
    time_marker m = true ∧ is_Some (header h).

Definition well_formed (lines : list string) : Prop :=
  markers_ok lines = true ∧ headers_ok lines = true.

(** All the cell blocks of the committed time steps, in commit order. *)
Definition all_cells (st : pstate) : list cell_data :=
  concat (snd <$> committed st).

(** The length the assembly expects: that of the first cell block that
    holds a value, 0 without one. *)
Definition first_length (cs : list cell_data) : nat :=
  match list_find (fun c => cell_values c ≠ []) cs with
  | Some (_, c) => length (cell_values c)
  | None => 0
  end.

(** The slice a cell block addresses in an array of shape [sh]. *)
Definition slice_of (sh : nat * nat * nat * nat) (c : cell_data)
    : option nat * option nat :=
  (norm_index sh.1.1.2 (Z.of_nat (cell_j c) - 1),
   norm_index sh.1.2 (Z.of_nat (cell_k c) - 1)).

(** The cell blocks of a time step that the assembly writes. *)
Definition matching (n_i : nat) (pd : list (string * list cell_data))
    : list (string * list cell_data) :=
  (fun td => (td.1, filter (fun c => length (cell_values c) = n_i) td.2))
    <$> pd.

(** ** Reachable cell blocks

    The dictionaries that the result can still depend on: those of the
    committed time steps, and those of [current_data] once a time step is
    open (before that, [current_data] is dropped at the first marker that
    matches and is never committed). *)
Definition reachable (st : pstate) (l : loc) : Prop :=
  (is_Some (current_time st) ∧ l ∈ current_data st)
  ∨ ∃ td, td ∈ pressure_data st ∧ l ∈ td_data td.

(** Two states that differ at most in unreachable dictionaries. *)
Definition similar (st1 st2 : pstate) : Prop :=
  time_values st1 = time_values st2 ∧
  time_dates st1 = time_dates st2 ∧
  pressure_data st1 = pressure_data st2 ∧
  current_time st1 = current_time st2 ∧
  current_data st1 = current_data st2 ∧
  stdout st1 = stdout st2 ∧
  length (store st1) = length (store st2) ∧
  ∀ l, reachable st1 l -> store st1 !! l = store st2 !! l.

(** ** The range of a write

    The slice that cell block [c] of time step [t] addresses exists in an
    array of shape [sh]: the assignment raises IndexError otherwise. *)
Definition in_range (sh : nat * nat * nat * nat) (t : nat) (c : cell_data)
    : Prop :=
  t < sh.2 ∧ ∃ j' k', slice_of sh c = (Some j', Some k').

(** ** The state without what is printed *)
Definition core (st : pstate)
    : list string * list string * list time_data * option string
      * list loc * list cell_data :=
  (time_values st, time_dates st, pressure_data st, current_time st,
   current_data st, store st).

(** ** States up to the dictionaries left behind

    [st1] is [st2] with the dictionaries [g] allocated first, which nothing
    refers to: every address of [st1] is one of [st2] moved up by the
    length of [g]. *)
Definition shift_td (n : nat) (td : time_data) : time_data :=
  TimeData (td_time td) (td_date td) ((fun l => n + l) <$> td_data td).

Definition shifted (g : list cell_data) (st1 st2 : pstate) : Prop :=
  time_values st1 = time_values st2 ∧
  time_dates st1 = time_dates st2 ∧
  pressure_data st1 = shift_td (length g) <$> pressure_data st2 ∧
  current_time st1 = current_time st2 ∧
  current_data st1 = (fun l => length g + l) <$> current_data st2 ∧
  stdout st1 = stdout st2 ∧
  store st1 = g ++ store st2.

(** ** Lines as the report tool writes them

    [str(n)] for a natural number, and a header line for a pair of
    indices. *)
Definition str_nat (n : nat) : string :=
  NilEmpty.string_of_uint (Nat.to_uint n).

Definition header_text (k j : nat) : string :=
  "** K = " +:+ str_nat k +:+ ", J = " +:+ str_nat j.

(** ** The file system after the effects of a stage

    A directory made stays a directory, a file written holds what was
    written; the other effects leave the file system as it is. *)
Definition fs_apply (fs : FS) (e : event) : FS :=
  match e with
  | EvMkdir p =>
      fun q => if String.eqb q p
               then match fs q with Some n => Some n | None => Some Dir end
               else fs q
  | EvWrite p chunks =>
      fun q => if String.eqb q p then Some (File chunks) else fs q
  | _ => fs
  end.

Definition fs_after (fs : FS) (evs : list event) : FS :=
  foldl fs_apply fs evs.

(** The command line of the supported version. *)
Definition report_cmd (rwd_folder_path case_name : string) : string :=
  "cd " +:+ rwd_folder_path +:+ "  & " +:+ Report_exe +:+ " -f "
    +:+ case_name +:+ ".rwd -o " +:+ case_name.

(** ** Properties of the string operations *)

Lemma after_app p : ∀ s r, Str.after p s = Some r -> s = p +:+ r.
Proof.
  induction p as [|a p IH]; intros s r.
  - simpl. by intros [= ->].
  - destruct s as [|b s]; simpl; [done|].
    destruct (Ascii.eqb a b) eqn:Hab; [|done].
    apply Ascii.eqb_eq in Hab as ->. intros H. by rewrite (IH _ _ H).
Qed.

Lemma span_app f : ∀ s a b, Str.span f s = (a, b) -> s = a +:+ b.
Proof.
  induction s as [|c s IH]; intros a b; simpl; [by intros [= <- <-]|].
  destruct (f c); [|by intros [= <- <-]].
  destruct (Str.span f s) as [a' b']. intros [= <- <-].
  by rewrite (IH a' b' eq_refl).
Qed.

Lemma span_all f : ∀ s a,
  Str.span f s = (a, EmptyString) -> a ≠ EmptyString ->
  Str.ends_with f s = true.
Proof.
  induction s as [|c s IH]; intros a; simpl; [by intros [= <-]|].
  destruct (f c) eqn:Hc; [|by intros [= <-]].
  destruct (Str.span f s) as [a' b'] eqn:Hs. intros [= <- ->] _.
  destruct s as [|c' s']; [done|]. apply (IH a'); [done|].
  simpl in Hs. destruct (f c'); [|done].
  destruct (Str.span f s'). by injection Hs as <- _.
Qed.

Lemma ends_with_app f p : ∀ r,
  r ≠ EmptyString -> Str.ends_with f (p +:+ r) = Str.ends_with f r.
Proof.
  induction p as [|c p IH]; intros r Hr; [done|].
  change (String c p +:+ r) with (String c (p +:+ r)).
  cbn [Str.ends_with]. rewrite IH by done.
  destruct (p +:+ r) eqn:Hpr; [|done].
  destruct p; [simpl in Hpr; by subst|done].
Qed.

Lemma rstrip_ends s : Str.ends_with Str.isspace (Str.rstrip s) = false.
Proof.
  induction s as [|c s IH]; [done|]. simpl.
  destruct (Str.rstrip s) as [|c' r] eqn:Hr.
  - by destruct (Str.isspace c) eqn:Hc.
  - done.
Qed.

(** On a stripped line, the white space after the number of a time
    marker is followed by a character. *)
Lemma stripped_marker_label raw r0 num r2 :
  Str.after "**  TIME = " (Str.strip raw) = Some r0 ->
  time_number r0 = Some (num, r2) ->
  (Str.span Str.isspace r2).1 ≠ EmptyString ->
  (Str.span Str.isspace r2).2 ≠ EmptyString.
Proof.
  intros Ha Hn Hws Hr3.
  destruct (Str.span Str.isspace r2) as [ws r3] eqn:Hs.
  simpl in Hws, Hr3. subst r3.
  pose proof (span_all _ _ _ Hs Hws) as He.
  assert (Hr2 : r2 ≠ EmptyString).
  { intros ->. by injection Hs as <-. }
  assert (Hr0 : ∃ p, r0 = p +:+ r2).
  { unfold time_number in Hn.
    destruct (Str.span Str.isdigit r0) as [ip r1] eqn:H0.
    apply span_app in H0 as ->.
    destruct (Str.is_empty ip); [done|].
    destruct r1 as [|c r1']; [injection Hn as <- <-; by exists ip|].
    destruct (Ascii.eqb c "."%char) eqn:Hc.
    - apply Ascii.eqb_eq in Hc as ->.
      destruct (Str.span Str.isdigit r1') as [fp r1''] eqn:H1.
      apply span_app in H1 as ->.
      destruct (Str.is_empty fp); injection Hn as <- <-; [by exists ip|].
      exists (ip +:+ "." +:+ fp). clear.
      induction ip as [|a ip IH]; [done|].
      change (String a ip +:+ ?x) with (String a (ip +:+ x)).
      by rewrite IH.
    - assert (Hn' : Some (ip, String c r1') = Some (num, r2)).
      { rewrite <- Hn. destruct c as [[] [] [] [] [] [] [] []]; try done. }
      injection Hn' as <- <-. by exists ip. }
  destruct Hr0 as [p ->]. apply after_app in Ha.
  pose proof (rstrip_ends (Str.lstrip raw)) as Hend.
  fold (Str.strip raw) in Hend. rewrite Ha in Hend.
  rewrite !ends_with_app in Hend; [congruence|done|].
  destruct p; [done|done].
Qed.

Lemma process_line_exec property show_info st raw :
  process_line property show_info st raw
  = exec show_info (classify property raw) st.
Proof.
  unfold process_line, classify, header, data_values, marker_line.
  destruct (Str.startswith (Str.strip raw) "**  TIME =") eqn:Ht.
  - destruct (match_time (Str.strip raw)) as [[t d]|]; reflexivity.
  - destruct (Str.startswith (Str.strip raw) "** K =") eqn:Hk.
    + destruct (match_header (Str.strip raw)) as [[k j]|] eqn:Hm; [reflexivity|].
      reflexivity.
    + destruct (is_data_line property (Str.strip raw)); [|reflexivity].
      destruct (mapM float (Str.split (Str.strip raw))); reflexivity.
Qed.

Lemma marker_line_classify property raw :
  marker_line raw
  = match classify property raw with
    | AMarker _ _ | ABadMarker => true
    | _ => false
    end.
Proof.
  unfold classify. destruct (marker_line raw).
  - destruct (match_time _) as [[? ?]|]; reflexivity.
  - destruct (header raw) as [[? ?]|]; [reflexivity|].
    destruct (data_values _ _); reflexivity.
Qed.

Lemma time_marker_classify property raw :
  time_marker raw
  = match classify property raw with AMarker _ _ => true | _ => false end.
Proof.
  unfold classify, time_marker. destruct (marker_line raw); simpl.
  - destruct (match_time _) as [[? ?]|]; [reflexivity|].
    apply bool_decide_eq_false. intros [? ?]; discriminate.
  - destruct (header raw) as [[? ?]|]; [reflexivity|].
    destruct (data_values _ _); reflexivity.
Qed.

Lemma header_classify property raw :
  header raw
  = match classify property raw with AHeader k j => Some (k, j) | _ => None end.
Proof.
  unfold classify. destruct (marker_line raw) eqn:Hm.
  - unfold header. unfold marker_line in Hm. rewrite Hm.
    destruct (match_time _) as [[? ?]|]; reflexivity.
  - destruct (header raw) as [[? ?]|]; [reflexivity|].
    destruct (data_values _ _); reflexivity.
Qed.

Lemma data_values_classify property raw :
  data_values property raw
  = match classify property raw with AData vs => Some vs | _ => None end.
Proof.
  unfold classify. destruct (marker_line raw) eqn:Hm.
  - unfold data_values. unfold marker_line in Hm. rewrite Hm.
    destruct (match_time _) as [[? ?]|]; reflexivity.
  - destruct (header raw) as [[k j]|] eqn:Hh.
    + unfold header in Hh. unfold data_values.
      destruct (Str.startswith (Str.strip raw) "**  TIME ="); [discriminate|].
      destruct (Str.startswith (Str.strip raw) "** K ="); [reflexivity|discriminate].
    + destruct (data_values _ _); reflexivity.
Qed.

(** ** The scan as a fold of actions *)


Lemma scan_cons property show_info st raw lines :
  scan property show_info st (raw :: lines)
  = scan property show_info (exec show_info (classify property raw) st) lines.
Proof. unfold scan. simpl. by rewrite process_line_exec. Qed.

Lemma scan_app property show_info st l1 l2 :
  scan property show_info st (l1 ++ l2)
  = scan property show_info (scan property show_info st l1) l2.
Proof. unfold scan. apply foldl_app. Qed.

(** An invariant of the actions holds along the scan. *)
Lemma scan_invariant (P : pstate -> Prop) property show_info lines :
  (∀ st raw, raw ∈ lines -> P st ->
             P (exec show_info (classify property raw) st)) ->
  ∀ st, P st -> P (scan property show_info st lines).
Proof.
  induction lines as [|raw lines IH]; intros Hstep st Hst; [done|].
  rewrite scan_cons. apply IH.
  - intros st' raw' Hin. apply Hstep. by right.
  - apply Hstep; [by left|done].
Qed.

Ltac commit_cases_eq st Ht Hd :=
  unfold commit;
  destruct (current_time st) eqn:Ht, (current_data st) eqn:Hd; simpl.

Ltac commit_cases st :=
  let Ht := fresh "Ht" in let Hd := fresh "Hd" in commit_cases_eq st Ht Hd.

Lemma commit_time_values st : time_values (commit st) = time_values st.
Proof. by commit_cases st. Qed.

Lemma commit_store st : store (commit st) = store st.
Proof. by commit_cases st. Qed.

Lemma commit_current_time st : current_time (commit st) = current_time st.
Proof. by commit_cases st. Qed.

Lemma commit_current_data st : current_data (commit st) = current_data st.
Proof. by commit_cases st. Qed.


Lemma add_values_time_values vs st :
  time_values (add_values vs st) = time_values st.
Proof. unfold add_values. by destruct (last (current_data st)) eqn:?. Qed.

Lemma add_values_pressure_data vs st :
  pressure_data (add_values vs st) = pressure_data st.
Proof. unfold add_values. by destruct (last (current_data st)) eqn:?. Qed.

Lemma add_values_current_time vs st :
  current_time (add_values vs st) = current_time st.
Proof. unfold add_values. by destruct (last (current_data st)) eqn:?. Qed.

Lemma add_values_current_data vs st :
  current_data (add_values vs st) = current_data st.
Proof. unfold add_values. by destruct (last (current_data st)) eqn:?. Qed.

Lemma add_values_store_length vs st :
  length (store (add_values vs st)) = length (store st).
Proof.
  unfold add_values. destruct (last (current_data st)); [|done].
  simpl. apply length_alter.
Qed.

(** ** The number of time steps *)

Lemma time_values_exec show_info a st :
  length (time_values (exec show_info a st))
  = length (time_values st)
    + match a with AMarker _ _ => 1 | _ => 0 end.
Proof.
  destruct a; simpl;
    rewrite ?length_app, ?commit_time_values, ?add_values_time_values;
    simpl; lia.
Qed.

Lemma time_values_scan property show_info lines : ∀ st,
  length (time_values (scan property show_info st lines))
  = length (time_values st) + length (filter (fun raw => time_marker raw = true) lines).
Proof.
  induction lines as [|raw lines IH]; intros st.
  - simpl. lia.
  - rewrite scan_cons, IH, time_values_exec, filter_cons.
    rewrite (time_marker_classify property raw).
    destruct (classify property raw); simpl; lia.
Qed.

Lemma time_values_parse property show_info lines :
  length (time_values (parse property show_info lines))
  = length (filter (fun raw => time_marker raw = true) lines).
Proof.
  unfold parse. destruct show_info; simpl;
    by rewrite commit_time_values, time_values_scan.
Qed.

(** ** Writing a slice *)

Lemma norm_index_nat n t t' :
  norm_index n (Z.of_nat t) = Some t' -> t' = t ∧ t < n.
Proof.
  unfold norm_index. repeat case_decide; intros [= <-]; lia.
Qed.

Lemma norm_index_nat_lt n t : t < n -> norm_index n (Z.of_nat t) = Some t.
Proof.
  intros. unfold norm_index. rewrite decide_True by lia. f_equal. lia.
Qed.


(** A 1-based index at most the size of the axis is valid, one place down. *)
Lemma norm_index_pred n x :
  1 <= x <= n -> norm_index n (Z.of_nat x - 1) = Some (x - 1).
Proof.
  intros. unfold norm_index. rewrite decide_True by lia. f_equal. lia.
Qed.

Lemma setitem_ok a j k t vals a' :
  setitem a j k (Z.of_nat t) vals = Ok a' ->
  ∃ j' k',
    norm_index (shape a).1.1.2 j = Some j' ∧
    norm_index (shape a).1.2 k = Some k' ∧
    t < (shape a).2 ∧
    length vals = (shape a).1.1.1 ∧
    shape a' = shape a ∧
    ∀ i j0 k0 t0,
      item a' i j0 k0 t0
      = if decide (j0 = j' ∧ k0 = k' ∧ t0 = t)
        then default zero (vals !! i)
        else item a i j0 k0 t0.
Proof.
  unfold setitem. destruct (shape a) as [[[ni nj] nk] nt] eqn:Hs. simpl.
  destruct (norm_index nj j) as [j'|] eqn:Hj; [|done].
  destruct (norm_index nk k) as [k'|] eqn:Hk; [|done].
  destruct (norm_index nt (Z.of_nat t)) as [t'|] eqn:Ht; [|done].
  case_decide; [|done]. intros [= <-].
  apply norm_index_nat in Ht as [-> Ht].
  exists j', k'. repeat split; try done.
Qed.

Lemma setitem_total a j k t vals j' k' :
  norm_index (shape a).1.1.2 j = Some j' ->
  norm_index (shape a).1.2 k = Some k' ->
  t < (shape a).2 ->
  length vals = (shape a).1.1.1 ->
  ∃ a', setitem a j k (Z.of_nat t) vals = Ok a' ∧ shape a' = shape a.
Proof.
  unfold setitem. destruct (shape a) as [[[ni nj] nk] nt] eqn:Hs. simpl.
  intros -> -> Ht Hl. rewrite (norm_index_nat_lt _ _ Ht).
  rewrite decide_True by done. eexists; split; [done|]. by simpl.
Qed.

(** Reading back a full slice whose items are those of a list. *)
Lemma getslice_items a j k t vals :
  length vals = (shape a).1.1.1 ->
  (∀ i, item a i j k t = default zero (vals !! i)) ->
  getslice a j k t = vals.
Proof.
  intros Hl Hit. unfold getslice. rewrite <- Hl.
  apply list_eq. intros i. rewrite list_lookup_fmap.
  destruct (decide (i < length vals)) as [Hi|Hi].
  - rewrite lookup_seq_lt by done. simpl. rewrite Hit.
    destruct (lookup_lt_is_Some_2 vals i Hi) as [x Hx]. by rewrite Hx.
  - rewrite lookup_seq_ge by lia. simpl.
    symmetry. apply lookup_ge_None. lia.
Qed.

Lemma getslice_zero a j k t :
  (∀ i, item a i j k t = zero) ->
  getslice a j k t = replicate (shape a).1.1.1 zero.
Proof.
  intros Hit. unfold getslice. apply list_eq. intros i.
  rewrite list_lookup_fmap.
  destruct (decide (i < (shape a).1.1.1)) as [Hi|Hi].
  - rewrite lookup_seq_lt by done. simpl. rewrite Hit.
    symmetry. by apply lookup_replicate_2.
  - rewrite lookup_seq_ge by lia. simpl.
    symmetry. apply lookup_ge_None. rewrite length_replicate. lia.
Qed.

(** ** The loops of the assembly *)

Lemma fill_cells_raise n_i t time e out cs :
  foldl (fill_cell n_i t time) (Raise e, out) cs = (Raise e, out).
Proof. induction cs; simpl; auto. Qed.

Lemma fill_raise n_i pd : ∀ t e out,
  fill n_i t pd (Raise e, out) = (Raise e, out).
Proof.
  induction pd as [|[time cs] pd IH]; intros; simpl; [done|].
  by rewrite fill_cells_raise, IH.
Qed.

Lemma fill_cells_ok_start n_i t time r out cs a' out' :
  foldl (fill_cell n_i t time) (r, out) cs = (Ok a', out') -> ∃ a, r = Ok a.
Proof.
  destruct r as [a|e]; [eauto|]. by rewrite fill_cells_raise.
Qed.

Lemma fill_ok_start n_i t pd r out a' out' :
  fill n_i t pd (r, out) = (Ok a', out') -> ∃ a, r = Ok a.
Proof.
  destruct r as [a|e]; [eauto|]. by rewrite fill_raise.
Qed.


(** One cell block: either it is written, or a warning is printed. *)
Lemma fill_cell_ok n_i t time a out c a' out' :
  fill_cell n_i t time (Ok a, out) c = (Ok a', out') ->
  (length (cell_values c) = n_i ∧ out' = out ∧
   setitem a (Z.of_nat (cell_j c) - 1) (Z.of_nat (cell_k c) - 1)
     (Z.of_nat t) (cell_values c) = Ok a')
  ∨ (length (cell_values c) ≠ n_i ∧ a' = a ∧
     out' = out ++ [MsgWarning n_i (length (cell_values c))
                      (Z.of_nat (cell_k c)) (Z.of_nat (cell_j c)) time]).
Proof.
  unfold fill_cell. case_decide.
  - intros [= ? ?]. left. by subst.
  - intros [= ? ?]. right. subst.
    by rewrite !Z.sub_add.
Qed.

(** The inner loop leaves alone every item that no written cell block
    addresses. *)
Lemma fill_cells_frame n_i t time cs : ∀ a out a' out',
  foldl (fill_cell n_i t time) (Ok a, out) cs = (Ok a', out') ->
  shape a' = shape a ∧
  ∀ i j0 k0 t0,
    (t0 = t -> ∀ c, c ∈ cs -> length (cell_values c) = n_i ->
       slice_of (shape a) c ≠ (Some j0, Some k0)) ->
    item a' i j0 k0 t0 = item a i j0 k0 t0.
Proof.
  induction cs as [|c cs IH]; intros a out a' out' Hf; cbn [foldl] in Hf.
  - by injection Hf as -> ->.
  - destruct (fill_cell n_i t time (Ok a, out) c) as [r1 out1] eqn:Hc.
    destruct (fill_cells_ok_start _ _ _ _ _ _ _ _ Hf) as [a1 ->].
    apply IH in Hf as [Hsh Hfr].
    apply fill_cell_ok in Hc as [(Hl & -> & Hset)|(Hl & -> & ->)].
    + apply setitem_ok in Hset
        as (j' & k' & Hj & Hk & Ht & _ & Hsh1 & Hit).
      split; [congruence|].
      intros i j0 k0 t0 Hno. rewrite Hfr, Hit.
      * case_decide as Heq; [|done]. destruct Heq as (-> & -> & ->).
        exfalso. eapply (Hno eq_refl c); [by left|done|].
        unfold slice_of. by rewrite Hj, Hk.
      * intros -> c' Hin Hl'. rewrite Hsh1. apply Hno; [done|by right|done].
    + split; [done|]. intros i j0 k0 t0 Hno. apply Hfr.
      intros -> c' Hin Hl'. apply Hno; [done|by right|done].
Qed.

(** The outer loop, likewise: time step [idx] of [pd] is written at the
    time index [t + idx]. *)
Lemma fill_frame n_i pd : ∀ t a out a' out',
  fill n_i t pd (Ok a, out) = (Ok a', out') ->
  shape a' = shape a ∧
  ∀ i j0 k0 t0,
    (∀ idx time cs c, pd !! idx = Some (time, cs) -> t0 = t + idx ->
       c ∈ cs -> length (cell_values c) = n_i ->
       slice_of (shape a) c ≠ (Some j0, Some k0)) ->
    item a' i j0 k0 t0 = item a i j0 k0 t0.
Proof.
  induction pd as [|[time cs] pd IH]; intros t a out a' out' Hf; cbn [fill] in Hf.
  - by injection Hf as -> ->.
  - destruct (foldl (fill_cell n_i t time) (Ok a, out) cs) as [r1 out1] eqn:Hc.
    destruct (fill_ok_start _ _ _ _ _ _ _ Hf) as [a1 ->].
    apply IH in Hf as [Hsh Hfr].
    apply fill_cells_frame in Hc as [Hsh1 Hfr1].
    split; [congruence|].
    intros i j0 k0 t0 Hno. rewrite Hfr, Hfr1; [done| |].
    + intros -> c Hin Hl. apply (Hno 0 time cs c); [done|lia|done|done].
    + intros idx time' cs' c Hlk -> Hin Hl. rewrite Hsh1.
      apply (Hno (S idx) time' cs' c); [done|lia|done|done].
Qed.

(** A written cell block is read back from its slice, unless a later cell
    block of the time step is written to the same slice. *)
Lemma fill_cells_written n_i t time pre c post a out a' out' :
  foldl (fill_cell n_i t time) (Ok a, out) (pre ++ c :: post) = (Ok a', out') ->
  length (cell_values c) = n_i ->
  (∀ c', c' ∈ post -> length (cell_values c') = n_i ->
         slice_of (shape a) c' ≠ slice_of (shape a) c) ->
  ∃ j' k',
    slice_of (shape a) c = (Some j', Some k') ∧
    t < (shape a).2 ∧ n_i = (shape a).1.1.1 ∧ shape a' = shape a ∧
    ∀ i, item a' i j' k' t = default zero (cell_values c !! i).
Proof.
  intros Hf Hl Hlater. rewrite foldl_app in Hf. cbn [foldl] in Hf.
  destruct (foldl (fill_cell n_i t time) (Ok a, out) pre) as [r1 out1] eqn:H1.
  destruct (fill_cell n_i t time (r1, out1) c) as [r2 out2] eqn:H2.
  destruct (fill_cells_ok_start _ _ _ _ _ _ _ _ Hf) as [a2 ->].
  destruct r1 as [a1|e]; [|done].
  apply fill_cells_frame in H1 as [Hsh1 _].
  apply fill_cell_ok in H2 as [(_ & -> & Hset)|(Hne & _)]; [|done].
  apply setitem_ok in Hset as (j' & k' & Hj & Hk & Ht & Hn & Hsh2 & Hit).
  apply fill_cells_frame in Hf as [Hsh3 Hfr].
  exists j', k'. rewrite <- Hsh1.
  assert (Hsl : slice_of (shape a1) c = (Some j', Some k'))
    by (unfold slice_of; by rewrite Hj, Hk).
  repeat split; [done|done|congruence|congruence|].
  intros i. rewrite Hfr, Hit.
  - by rewrite decide_True.
  - intros _ c' Hin Hl'. rewrite Hsh2, <- Hsl, Hsh1. by apply Hlater.
Qed.

Lemma fill_written n_i pd : ∀ t a out a' out' idx time pre c post,
  fill n_i t pd (Ok a, out) = (Ok a', out') ->
  pd !! idx = Some (time, pre ++ c :: post) ->
  length (cell_values c) = n_i ->
  (∀ c', c' ∈ post -> length (cell_values c') = n_i ->
         slice_of (shape a) c' ≠ slice_of (shape a) c) ->
  ∃ j' k',
    slice_of (shape a) c = (Some j', Some k') ∧
    t + idx < (shape a).2 ∧ n_i = (shape a).1.1.1 ∧
    ∀ i, item a' i j' k' (t + idx) = default zero (cell_values c !! i).
Proof.
  induction pd as [|[time0 cs] pd IH];
    intros t a out a' out' idx time pre c post Hf Hlk Hl Hlater; [done|].
  cbn [fill] in Hf.
  destruct (foldl (fill_cell n_i t time0) (Ok a, out) cs) as [r1 out1] eqn:Hc.
  destruct (fill_ok_start _ _ _ _ _ _ _ Hf) as [a1 ->].
  destruct idx as [|idx]; simpl in Hlk.
  - injection Hlk as -> ->.
    apply fill_cells_written in Hc
      as (j' & k' & Hsl & Ht & Hn & Hsh & Hit); [|done|done].
    apply fill_frame in Hf as [_ Hfr].
    exists j', k'. rewrite Nat.add_0_r. repeat split; [done|done|done|].
    intros i. rewrite Hfr; [done|]. intros; lia.
  - apply fill_cells_frame in Hc as [Hsh1 _].
    destruct (IH _ _ _ _ _ _ _ _ _ _ Hf Hlk Hl)
      as (j' & k' & Hsl & Ht & Hn & Hit).
    { rewrite Hsh1. done. }
    exists j', k'. rewrite <- Hsh1.
    replace (t + S idx) with (S t + idx) by lia. done.
Qed.

(** What has been printed stays printed. *)
Lemma fill_cells_out n_i t time cs : ∀ r out r' out',
  foldl (fill_cell n_i t time) (r, out) cs = (r', out') ->
  ∃ more, out' = out ++ more.
Proof.
  induction cs as [|c cs IH]; intros r out r' out' Hf; cbn [foldl] in Hf.
  - injection Hf as _ ->. exists []. by rewrite app_nil_r.
  - destruct (fill_cell n_i t time (r, out) c) as [r1 out1] eqn:Hc.
    apply IH in Hf as [more ->].
    unfold fill_cell in Hc. destruct r as [a|e].
    + case_decide; injection Hc as _ <-; [eauto|].
      rewrite <- app_assoc. eauto.
    + injection Hc as _ <-. eauto.
Qed.

Lemma fill_out n_i pd : ∀ t r out r' out',
  fill n_i t pd (r, out) = (r', out') -> ∃ more, out' = out ++ more.
Proof.
  induction pd as [|[time cs] pd IH]; intros t r out r' out' Hf;
    cbn [fill] in Hf.
  - injection Hf as _ ->. exists []. by rewrite app_nil_r.
  - destruct (foldl (fill_cell n_i t time) (r, out) cs) as [r1 out1] eqn:Hc.
    apply fill_cells_out in Hc as [m1 ->].
    apply IH in Hf as [m2 ->]. rewrite <- app_assoc. eauto.
Qed.

(** Every cell block of another length is reported. *)
Lemma fill_cells_warns n_i t time cs : ∀ a out a' out' c,
  foldl (fill_cell n_i t time) (Ok a, out) cs = (Ok a', out') ->
  c ∈ cs -> length (cell_values c) ≠ n_i ->
  MsgWarning n_i (length (cell_values c))
    (Z.of_nat (cell_k c)) (Z.of_nat (cell_j c)) time ∈ out'.
Proof.
  induction cs as [|c0 cs IH]; intros a out a' out' c Hf Hin Hne;
    cbn [foldl] in Hf; [by apply elem_of_nil in Hin|].
  destruct (fill_cell n_i t time (Ok a, out) c0) as [r1 out1] eqn:Hc.
  destruct (fill_cells_ok_start _ _ _ _ _ _ _ _ Hf) as [a1 ->].
  apply elem_of_cons in Hin as [->|Hin]; [|by eapply IH].
  apply fill_cell_ok in Hc as [(Hl & _)|(_ & _ & ->)]; [done|].
  apply fill_cells_out in Hf as [more ->].
  rewrite !elem_of_app. left. right. by apply list_elem_of_singleton.
Qed.

Lemma fill_warns n_i pd : ∀ t a out a' out' idx time cs c,
  fill n_i t pd (Ok a, out) = (Ok a', out') ->
  pd !! idx = Some (time, cs) ->
  c ∈ cs -> length (cell_values c) ≠ n_i ->
  MsgWarning n_i (length (cell_values c))
    (Z.of_nat (cell_k c)) (Z.of_nat (cell_j c)) time ∈ out'.
Proof.
  induction pd as [|[time0 cs0] pd IH];
    intros t a out a' out' idx time cs c Hf Hlk Hin Hne; [done|].
  cbn [fill] in Hf.
  destruct (foldl (fill_cell n_i t time0) (Ok a, out) cs0) as [r1 out1] eqn:Hc.
  destruct (fill_ok_start _ _ _ _ _ _ _ Hf) as [a1 ->].
  destruct idx as [|idx]; simpl in Hlk.
  - injection Hlk as -> ->.
    eapply fill_cells_warns in Hc; [|done|done].
    apply fill_out in Hf as [more ->]. apply elem_of_app. by left.
  - by eapply IH.
Qed.

(** The array, or the exception, is the one obtained without the cell
    blocks of another length. *)
Lemma fill_cells_matching n_i t time cs : ∀ acc acc',
  acc.1 = acc'.1 ->
  (foldl (fill_cell n_i t time) acc cs).1
  = (foldl (fill_cell n_i t time) acc'
       (filter (fun c => length (cell_values c) = n_i) cs)).1.
Proof.
  induction cs as [|c cs IH]; intros [r out] [r' out'] Heq; simpl in Heq;
    subst r'; [done|].
  rewrite filter_cons. cbn [foldl]. case_decide as Hl.
  - cbn [foldl]. apply IH. unfold fill_cell.
    destruct r; [|done]. by rewrite !decide_True.
  - apply IH. unfold fill_cell. destruct r; [|done]. by rewrite decide_False.
Qed.

Lemma fill_matching n_i pd : ∀ t acc acc',
  acc.1 = acc'.1 ->
  (fill n_i t pd acc).1 = (fill n_i t (matching n_i pd) acc').1.
Proof.
  induction pd as [|[time cs] pd IH]; intros t acc acc' Heq; [done|].
  cbn [fill matching fmap list_fmap fst snd]. apply IH.
  by apply fill_cells_matching.
Qed.

(** The loops end without exception when every written cell block
    addresses a slice of the array. *)
Lemma fill_cells_total n_i t time cs : ∀ a out,
  n_i = (shape a).1.1.1 -> t < (shape a).2 ->
  (∀ c, c ∈ cs -> length (cell_values c) = n_i ->
        ∃ j' k', slice_of (shape a) c = (Some j', Some k')) ->
  ∃ a' out',
    foldl (fill_cell n_i t time) (Ok a, out) cs = (Ok a', out') ∧
    shape a' = shape a.
Proof.
  induction cs as [|c cs IH]; intros a out Hn Ht Hall; [by eauto|].
  cbn [foldl]. unfold fill_cell at 2. case_decide as Hl.
  - destruct (Hall c) as (j' & k' & Hsl); [by left|done|].
    injection Hsl as Hj Hk.
    destruct (setitem_total a _ _ t (cell_values c) j' k' Hj Hk Ht)
      as (a1 & -> & Hsh1); [congruence|].
    destruct (IH a1 out) as (a' & out' & -> & Hsh');
      [congruence|congruence| |exists a', out'; split; congruence].
    intros c' Hin Hl'. rewrite Hsh1. apply Hall; [by right|done].
  - apply IH; [done|done|]. intros c' Hin Hl'. apply Hall; [by right|done].
Qed.

Lemma fill_total n_i pd : ∀ t a out,
  n_i = (shape a).1.1.1 -> t + length pd <= (shape a).2 ->
  (∀ td c, td ∈ pd -> c ∈ td.2 -> length (cell_values c) = n_i ->
        ∃ j' k', slice_of (shape a) c = (Some j', Some k')) ->
  ∃ a' out', fill n_i t pd (Ok a, out) = (Ok a', out') ∧ shape a' = shape a.
Proof.
  induction pd as [|[time cs] pd IH]; intros t a out Hn Ht Hall; [by eauto|].
  cbn [fill]. simpl in Ht.
  destruct (fill_cells_total n_i t time cs a out) as (a1 & out1 & -> & Hsh1);
    [done|lia| |].
  { intros c Hin. apply (Hall (time, cs)); [by left|done]. }
  destruct (IH (S t) a1 out1) as (a' & out' & -> & Hsh');
    [congruence|rewrite Hsh1; lia| |exists a', out'; split; congruence].
  intros td c Htd. rewrite Hsh1. apply Hall. by right.
Qed.

(** ** The inferred dimensions *)

Lemma first_length_cons c cs :
  first_length (c :: cs)
  = if decide (cell_values c = []) then first_length cs
    else length (cell_values c).
Proof.
  unfold first_length. cbn [list_find].
  destruct (decide (cell_values c = [])) as [He|He].
  - rewrite decide_False by (intros H; by apply H).
    by destruct (list_find _ cs) as [[? ?]|].
  - by rewrite decide_True.
Qed.

Lemma scan_cells_spec cs : ∀ ks js ic,
  foldl scan_cell (ks, js, ic) cs
  = (list_to_set (cell_k <$> cs) ∪ ks, list_to_set (cell_j <$> cs) ∪ js,
     if decide (ic = 0) then first_length cs else ic).
Proof.
  induction cs as [|c cs IH]; intros ks js ic; cbn [foldl].
  - simpl. rewrite !(left_id_L ∅ (∪)).
    by destruct (decide (ic = 0)) as [->|].
  - unfold scan_cell at 2. rewrite IH, first_length_cons. f_equal; [f_equal|].
    + rewrite fmap_cons, list_to_set_cons.
      by rewrite (assoc_L (∪)), (comm_L (∪) _ {[cell_k c]}).
    + rewrite fmap_cons, list_to_set_cons.
      by rewrite (assoc_L (∪)), (comm_L (∪) _ {[cell_j c]}).
    + destruct (decide (ic = 0)) as [->|Hic]; [|by rewrite decide_False].
      by destruct (cell_values c) as [|v vs].
Qed.

Lemma grid_scan_flat pd :
  grid_scan pd = foldl scan_cell (∅, ∅, 0) (concat (snd <$> pd)).
Proof.
  unfold grid_scan. generalize (∅ : gset nat, ∅ : gset nat, 0).
  induction pd as [|td pd IH]; intros acc; [done|].
  cbn [foldl fmap list_fmap concat]. by rewrite foldl_app, IH.
Qed.

Lemma py_max_ok s m :
  py_max s = Ok m -> s ≠ ∅ ∧ ∀ x, x ∈ s -> x <= m.
Proof.
  unfold py_max. case_decide; [done|]. intros [= <-]. split; [done|].
  intros x Hx. apply max_list_elem_of_le. by apply elem_of_elements.
Qed.

Lemma union_singleton_nonempty (x : nat) (s s' : gset nat) :
  {[x]} ∪ s ∪ s' ≠ ∅.
Proof.
  intros H. apply (not_elem_of_empty (C := gset nat) x). rewrite <- H.
  apply elem_of_union_l, elem_of_union_l. by apply elem_of_singleton.
Qed.

Lemma py_max_total s : s ≠ ∅ -> ∃ m, py_max s = Ok m.
Proof. intros. unfold py_max. rewrite decide_False by done. eauto. Qed.

Lemma infer_dims_ok st n_i n_j n_k n_time :
  infer_dims st = Ok (n_i, n_j, n_k, n_time) ->
  n_i = first_length (all_cells st) ∧
  n_time = length (time_values st) ∧
  ∀ c, c ∈ all_cells st -> cell_j c <= n_j ∧ cell_k c <= n_k.
Proof.
  unfold infer_dims, all_cells. rewrite grid_scan_flat, scan_cells_spec.
  destruct (py_max (list_to_set (cell_k <$> _) ∪ ∅)) as [nk|] eqn:Hk; [|done].
  destruct (py_max (list_to_set (cell_j <$> _) ∪ ∅)) as [nj|] eqn:Hj; [|done].
  intros [= <- <- <- <-]. split; [done|]. split; [done|].
  apply py_max_ok in Hk as [_ Hk]. apply py_max_ok in Hj as [_ Hj].
  intros c Hc. split.
  - apply Hj. apply elem_of_union_l, elem_of_list_to_set, list_elem_of_fmap.
    eauto.
  - apply Hk. apply elem_of_union_l, elem_of_list_to_set, list_elem_of_fmap.
    eauto.
Qed.

Lemma infer_dims_total st :
  all_cells st ≠ [] ->
  ∃ n_i n_j n_k, infer_dims st = Ok (n_i, n_j, n_k, length (time_values st)).
Proof.
  unfold infer_dims, all_cells. rewrite grid_scan_flat, scan_cells_spec.
  destruct (concat _) as [|c cs]; [done|]. intros _.
  destruct (py_max_total (list_to_set (cell_k <$> c :: cs) ∪ ∅)) as [nk ->].
  { rewrite fmap_cons, list_to_set_cons. apply union_singleton_nonempty. }
  destruct (py_max_total (list_to_set (cell_j <$> c :: cs) ∪ ∅)) as [nj ->].
  { rewrite fmap_cons, list_to_set_cons. apply union_singleton_nonempty. }
  eauto.
Qed.

Lemma infer_dims_empty st :
  all_cells st = [] -> infer_dims st = Raise ValueError.
Proof.
  unfold infer_dims, all_cells. rewrite grid_scan_flat. by intros ->.
Qed.

(** ** The assembly and the parser, end to end *)

Lemma assemble_ok show_info st a out :
  assemble show_info st = (Ok a, out) ->
  ∃ n_i n_j n_k n_time out0,
    infer_dims st = Ok (n_i, n_j, n_k, n_time) ∧
    shape a = (n_i, n_j, n_k, n_time) ∧
    fill n_i 0 (committed st) (Ok (zeros (n_i, n_j, n_k, n_time)), out0)
    = (Ok a, out).
Proof.
  unfold assemble.
  destruct (infer_dims st) as [[[[ni nj] nk] nt]|] eqn:Hd; [|done].
  intros Hf. exists ni, nj, nk, nt. eexists. split; [done|].
  split; [|exact Hf]. by apply fill_frame in Hf as [-> _].
Qed.

Lemma CMG_rwo2npy_ok fs rwo_folder_path case_name property is_save
    save_folder_path show_info a ev :
  CMG_rwo2npy fs rwo_folder_path case_name property is_save
    save_folder_path show_info = (Ok a, ev) ->
  ∃ lines out,
    fs_open fs (rwo_file_path rwo_folder_path case_name property) = Ok lines ∧
    assemble show_info (parse property show_info lines) = (Ok a, out) ∧
    ev = EvMkdir save_folder_path :: (EvPrint <$> out) ++
           (if is_save
            then [EvSave (save_file_path save_folder_path case_name property) a]
            else []).
Proof.
  unfold CMG_rwo2npy. destruct (fs_exists _ _); simpl; [|done].
  destruct (fs_open _ _) as [lines|]; [|done].
  destruct (assemble _ _) as [[a0|e] out] eqn:Ha; [|done].
  intros [= <- <-]. by exists lines, out.
Qed.

Lemma fs_open_exists fs p lines : fs_open fs p = Ok lines -> fs_exists fs p = true.
Proof. unfold fs_open, fs_exists. by destruct (fs p) as [[|?]|]. Qed.

Lemma CMG_rwo2npy_open fs rwo_folder_path case_name property is_save
    save_folder_path show_info lines :
  fs_open fs (rwo_file_path rwo_folder_path case_name property) = Ok lines ->
  CMG_rwo2npy fs rwo_folder_path case_name property is_save
    save_folder_path show_info
  = match assemble show_info (parse property show_info lines) with
    | (Raise e, out) => (Raise e, EvMkdir save_folder_path :: (EvPrint <$> out))
    | (Ok a, out) =>
        (Ok a,
         EvMkdir save_folder_path :: (EvPrint <$> out) ++
           (if is_save
            then [EvSave (save_file_path save_folder_path case_name property) a]
            else []))
    end.
Proof.
  intros Ho. unfold CMG_rwo2npy.
  by rewrite (fs_open_exists _ _ _ Ho), Ho.
Qed.

(** The shape of the returned array is the inferred one. *)
Lemma CMG_rwo2npy_shape fs rwo_folder_path case_name property is_save
    save_folder_path show_info lines a ev :
  fs_open fs (rwo_file_path rwo_folder_path case_name property) = Ok lines ->
  CMG_rwo2npy fs rwo_folder_path case_name property is_save
    save_folder_path show_info = (Ok a, ev) ->
  infer_dims (parse property show_info lines) = Ok (shape a) ∧
  ∃ out0 out,
    fill (shape a).1.1.1 0 (committed (parse property show_info lines))
      (Ok (zeros (shape a)), out0) = (Ok a, out) ∧
    ev = EvMkdir save_folder_path :: (EvPrint <$> out) ++
           (if is_save
            then [EvSave (save_file_path save_folder_path case_name property) a]
            else []).
Proof.
  intros Ho Hr. apply CMG_rwo2npy_ok in Hr as (lines' & out & Ho' & Ha & ->).
  rewrite Ho in Ho'. injection Ho' as <-.
  apply assemble_ok in Ha as (ni & nj & nk & nt & out0 & Hd & Hsh & Hf).
  rewrite Hsh. split; [done|]. by exists out0, out.
Qed.

(** ** Reports without a cell-block header *)

Lemma commit_nothing st : current_data st = [] -> commit st = st.
Proof. intros H. unfold commit. rewrite H. by destruct (current_time st). Qed.

Lemma scan_no_header property show_info lines :
  Forall (fun raw => header raw = None) lines ->
  ∀ st, current_data st = [] ∧ pressure_data st = [] ->
    current_data (scan property show_info st lines) = [] ∧
    pressure_data (scan property show_info st lines) = [].
Proof.
  intros Hall.
  apply (scan_invariant
           (fun st => current_data st = [] ∧ pressure_data st = [])).
  intros st raw Hin [Hc Hp].
  rewrite Forall_forall in Hall. specialize (Hall raw Hin).
  rewrite (header_classify property) in Hall.
  destruct (classify property raw); simpl; try done.
  - by rewrite commit_nothing.
  - by rewrite commit_nothing.
  - by rewrite add_values_current_data, add_values_pressure_data.
Qed.

Lemma parse_pressure_data property show_info lines :
  pressure_data (parse property show_info lines)
  = pressure_data (commit (scan property show_info init lines)).
Proof. unfold parse. by destruct show_info. Qed.


(** C9: for every existing raw report file without a line that matches the
    cell-block header pattern, [CMG_rwo2npy] raises the ValueError of [max]
    over an empty set, after creating the save directory and before any
    array exists; the empty file is such a report. *)
Theorem no_header_raises fs rwo_folder_path case_name property is_save
    save_folder_path show_info lines :
  fs_open fs (rwo_file_path rwo_folder_path case_name property) = Ok lines ->
  Forall (fun raw => header raw = None) lines ->
  ∃ out,
    CMG_rwo2npy fs rwo_folder_path case_name property is_save
      save_folder_path show_info
    = (Raise ValueError, EvMkdir save_folder_path :: (EvPrint <$> out)).
Proof.
  intros Ho Hall. rewrite (CMG_rwo2npy_open _ _ _ _ _ _ _ _ Ho).
  destruct (scan_no_header property show_info lines Hall init) as [Hc Hp];
    [done|].
  unfold assemble. rewrite infer_dims_empty; [eauto|].
  unfold all_cells, committed. rewrite parse_pressure_data.
  by rewrite commit_nothing, Hp.
Qed.

(** ** The time axis *)

(** C2 (amended): whenever [CMG_rwo2npy] returns an array, the size of its
    fourth axis is the number of lines that match the time-marker pattern,
    that is the number of time steps opened, with or without cell blocks. *)
Theorem n_time_counts_time_markers fs rwo_folder_path case_name property
    is_save save_folder_path show_info lines a ev :
  fs_open fs (rwo_file_path rwo_folder_path case_name property) = Ok lines ->
  CMG_rwo2npy fs rwo_folder_path case_name property is_save
    save_folder_path show_info = (Ok a, ev) ->
  (shape a).2 = length (filter (fun raw => time_marker raw = true) lines).
Proof.
  intros Ho Hr.
  destruct (CMG_rwo2npy_shape _ _ _ _ _ _ _ _ _ _ Ho Hr) as [Hd _].
  destruct (shape a) as [[[ni nj] nk] nt].
  apply infer_dims_ok in Hd as (_ & -> & _).
  apply time_values_parse.
Qed.

(** ** The first axis *)

(** C8 (amended): whenever [CMG_rwo2npy] returns an array, the size of its
    first axis is the length of the value sequence of the first committed
    cell block, in commit order, whose value sequence is not empty, and 0
    when every committed cell block is empty. *)
Theorem n_i_is_first_populated_length fs rwo_folder_path case_name property
    is_save save_folder_path show_info lines a ev :
  fs_open fs (rwo_file_path rwo_folder_path case_name property) = Ok lines ->
  CMG_rwo2npy fs rwo_folder_path case_name property is_save
    save_folder_path show_info = (Ok a, ev) ->
  (shape a).1.1.1
  = first_length (all_cells (parse property show_info lines)).
Proof.
  intros Ho Hr.
  destruct (CMG_rwo2npy_shape _ _ _ _ _ _ _ _ _ _ Ho Hr) as [Hd _].
  destruct (shape a) as [[[ni nj] nk] nt].
  by apply infer_dims_ok in Hd as (-> & _).
Qed.

(** ** Missing inputs *)

(** C5: each of the three stages raises FileNotFoundError when its input
    directory or its expected input file is missing, and has then performed
    no effect at all: no directory created, no file written, no process
    launched, nothing printed.  [CMG_rwo2npy] tests the file only; a missing
    directory shows as a missing file in a hierarchical file system. *)
Theorem not_found_before_any_effect fs folder case_name property :
  (∀ (is_gmc_property : bool) (precision : Z),
     fs_is_dir fs folder = false
     ∨ fs_is_file fs (if is_gmc_property
                      then joinpath folder (case_name +:+ ".gmch.sr3")
                      else joinpath folder (case_name +:+ ".sr3")) = false ->
     generate_CMG_rwd fs folder case_name property is_gmc_property precision
     = (Raise FileNotFoundError, []))
  ∧ (∀ cmg_version : string,
       fs_is_dir fs folder = false
       ∨ fs_is_file fs (joinpath folder (case_name +:+ ".rwd")) = false ->
       run_CMG_rwd_report fs folder case_name cmg_version
       = (Raise FileNotFoundError, []))
  ∧ (∀ (is_save : bool) (save_folder_path : string) (show_info : bool),
       (hierarchical fs ∧ fs_is_dir fs folder = false)
       ∨ fs_exists fs (rwo_file_path folder case_name property) = false ->
       CMG_rwo2npy fs folder case_name property is_save save_folder_path
         show_info
       = (Raise FileNotFoundError, [])).
Proof.
  split; [|split].
  - intros is_gmc precision [Hd|Hf]; unfold generate_CMG_rwd.
    + by rewrite Hd.
    + destruct (fs_is_dir fs folder); [|done]. simpl.
      by destruct is_gmc; rewrite Hf.
  - intros v [Hd|Hf]; unfold run_CMG_rwd_report.
    + by rewrite Hd.
    + destruct (fs_is_dir fs folder); [|done]. simpl. by rewrite Hf.
  - intros is_save save si H. unfold CMG_rwo2npy.
    assert (He : fs_exists fs (rwo_file_path folder case_name property) = false).
    { destruct H as [[Hh Hd]|He]; [|done].
      destruct (fs_exists fs _) eqn:He; [|done].
      apply Hh in He. congruence. }
    by rewrite He.
Qed.

(** ** An unsupported version *)

Lemma run_CMG_rwd_report_unsupported fs rwd_folder_path case_name cmg_version :
  fs_is_dir fs rwd_folder_path = true ->
  fs_is_file fs (joinpath rwd_folder_path (case_name +:+ ".rwd")) = true ->
  cmg_version ≠ "ese-ts2win-v2024.20" ->
  run_CMG_rwd_report fs rwd_folder_path case_name cmg_version
  = (Raise UnboundLocalError, [EvPrint (MsgNotImplemented cmg_version)]).
Proof.
  intros Hd Hf Hv. unfold run_CMG_rwd_report. rewrite Hd, Hf. simpl.
  by apply String.eqb_neq in Hv as ->.
Qed.

Lemma run_CMG_rwd_report_supported fs rwd_folder_path case_name :
  fs_is_dir fs rwd_folder_path = true ->
  fs_is_file fs (joinpath rwd_folder_path (case_name +:+ ".rwd")) = true ->
  run_CMG_rwd_report fs rwd_folder_path case_name "ese-ts2win-v2024.20"
  = (Ok tt,
     [EvSystem ("cd " +:+ rwd_folder_path +:+ "  & " +:+ Report_exe +:+ " -f "
                +:+ case_name +:+ ".rwd -o " +:+ case_name)]).
Proof.
  intros Hd Hf. unfold run_CMG_rwd_report. by rewrite Hd, Hf.
Qed.

(** ** Persistence *)

(** C7 (amended): [CMG_rwo2npy] creates the save directory as its first
    effect whenever the report file exists, whether or not [is_save] is
    set; it writes the serialized array only when [is_save] is set, as its
    last effect and once the array is assembled; it creates no other
    directory, writes no other file and launches no process. *)
Theorem save_directory_always_array_on_request fs rwo_folder_path case_name
    property is_save save_folder_path show_info :
  let run := CMG_rwo2npy fs rwo_folder_path case_name property is_save
               save_folder_path show_info in
  (if fs_exists fs (rwo_file_path rwo_folder_path case_name property)
   then ∃ rest, run.2 = EvMkdir save_folder_path :: rest ∧
                ∀ e, e ∈ rest ->
                  (∃ m, e = EvPrint m)
                  ∨ (∃ a, e = EvSave (save_file_path save_folder_path
                                      case_name property) a ∧
                          run.1 = Ok a ∧ is_save = true)
   else run.2 = [])
  ∧ (∀ a, run.1 = Ok a ->
       if is_save
       then last run.2 = Some (EvSave (save_file_path save_folder_path
                                       case_name property) a)
       else ∀ p a', EvSave p a' ∉ run.2).
Proof.
  cbn zeta. unfold CMG_rwo2npy.
  destruct (fs_exists fs _) eqn:He; simpl; [|done].
  destruct (fs_open fs _) as [lines|e] eqn:Ho; simpl.
  - destruct (assemble _ _) as [[a|e] out]; simpl.
    + split.
      * eexists; split; [done|]. intros e [Hin|Hin]%elem_of_app.
        -- apply list_elem_of_fmap in Hin as (m & -> & _). eauto.
        -- destruct is_save; [|by apply elem_of_nil in Hin].
           apply list_elem_of_singleton in Hin as ->. right. eauto.
      * intros a' [= <-]. destruct is_save.
        -- by rewrite app_comm_cons, last_snoc.
        -- intros p a' Hin. rewrite app_nil_r in Hin.
           apply elem_of_cons in Hin as [?|Hin]; [done|].
           by apply list_elem_of_fmap in Hin as (m & ? & _).
    + split; [|done]. eexists; split; [done|]. intros e' Hin.
      apply list_elem_of_fmap in Hin as (m & -> & _). eauto.
  - split; [|done]. eexists; split; [done|].
    intros e' Hin. by apply elem_of_nil in Hin.
Qed.

(** ** The slices of the returned array *)

Lemma slice_of_one_based sh c j' k' :
  slice_of sh c = (Some j', Some k') ->
  (1 <= cell_j c -> j' = cell_j c - 1) ∧
  (cell_j c = 0 -> j' = sh.1.1.2 - 1) ∧
  (1 <= cell_k c -> k' = cell_k c - 1) ∧
  (cell_k c = 0 -> k' = sh.1.2 - 1).
Proof.
  unfold slice_of, norm_index. intros [= Hj Hk].
  repeat case_decide; simplify_eq; lia.
Qed.

Lemma lookup_split {A} (l : list A) p x :
  l !! p = Some x ->
  l = take p l ++ x :: drop (S p) l ∧
  ∀ y, y ∈ drop (S p) l -> ∃ q, p < q ∧ l !! q = Some y.
Proof.
  intros Hp. split; [by rewrite take_drop_middle|].
  intros y [q Hq]%list_elem_of_lookup. rewrite lookup_drop in Hq.
  exists (S p + q). split; [lia|done].
Qed.

(** C1 (amended): when [CMG_rwo2npy] returns, every committed cell block
    with as many values as the first axis is read back from the slice
    [[:, j-1, k-1, time_idx]] of the array, in i-axis order, where
    [time_idx] is the position of its time step in commit order and an
    index 0 addresses the last place of its axis, provided that no later
    cell block of the same time step with as many values addresses the same
    slice (the last one written stays). *)
Theorem matching_cell_block_read_back fs rwo_folder_path case_name property
    is_save save_folder_path show_info lines a ev time_idx time cs p c :
  fs_open fs (rwo_file_path rwo_folder_path case_name property) = Ok lines ->
  CMG_rwo2npy fs rwo_folder_path case_name property is_save
    save_folder_path show_info = (Ok a, ev) ->
  committed (parse property show_info lines) !! time_idx = Some (time, cs) ->
  cs !! p = Some c ->
  length (cell_values c) = (shape a).1.1.1 ->
  (∀ q c', p < q -> cs !! q = Some c' ->
           length (cell_values c') = (shape a).1.1.1 ->
           slice_of (shape a) c' ≠ slice_of (shape a) c) ->
  ∃ j' k',
    slice_of (shape a) c = (Some j', Some k') ∧
    (1 <= cell_j c -> j' = cell_j c - 1) ∧
    (1 <= cell_k c -> k' = cell_k c - 1) ∧
    time_idx < (shape a).2 ∧
    getslice a j' k' time_idx = cell_values c.
Proof.
  intros Ho Hr Ht Hp Hl Hlater.
  destruct (CMG_rwo2npy_shape _ _ _ _ _ _ _ _ _ _ Ho Hr)
    as (_ & out0 & out & Hf & _).
  destruct (lookup_split _ _ _ Hp) as [Hcs Hpost]. rewrite Hcs in Ht.
  destruct (fill_written _ _ _ _ _ _ _ _ _ _ _ _ Hf Ht Hl)
    as (j' & k' & Hsl & Hlt & _ & Hit).
  { intros c' [q [Hq Hc']]%Hpost. simpl. by apply Hlater with q. }
  simpl in Hsl, Hlt, Hit. exists j', k'.
  destruct (slice_of_one_based _ _ _ _ Hsl) as (Hj & _ & Hk & _).
  repeat split; try done. by apply getslice_items.
Qed.

(** C4 (amended): when [CMG_rwo2npy] returns, a committed cell block whose
    number of values differs from the first axis is reported by a warning,
    leaves the array and the run as they are (the array is the one
    assembled from the other cell blocks alone), and its slice holds
    zeros provided that no cell block of the same time step with as many
    values as the first axis addresses that slice. *)
Theorem mismatched_cell_block_skipped fs rwo_folder_path case_name property
    is_save save_folder_path show_info lines a ev time_idx time cs p c :
  fs_open fs (rwo_file_path rwo_folder_path case_name property) = Ok lines ->
  CMG_rwo2npy fs rwo_folder_path case_name property is_save
    save_folder_path show_info = (Ok a, ev) ->
  committed (parse property show_info lines) !! time_idx = Some (time, cs) ->
  cs !! p = Some c ->
  length (cell_values c) ≠ (shape a).1.1.1 ->
  EvPrint (MsgWarning (shape a).1.1.1 (length (cell_values c))
           (Z.of_nat (cell_k c)) (Z.of_nat (cell_j c)) time) ∈ ev
  ∧ (∀ a0 out,
       fill_cell (shape a).1.1.1 time_idx time (Ok a0, out) c
       = (Ok a0,
          out ++ [MsgWarning (shape a).1.1.1 (length (cell_values c))
                    (Z.of_nat (cell_k c)) (Z.of_nat (cell_j c)) time]))
  ∧ (fill (shape a).1.1.1 0
       (matching (shape a).1.1.1 (committed (parse property show_info lines)))
       (Ok (zeros (shape a)), [])).1 = Ok a
  ∧ (∀ j' k',
       slice_of (shape a) c = (Some j', Some k') ->
       (∀ q c', cs !! q = Some c' ->
                length (cell_values c') = (shape a).1.1.1 ->
                slice_of (shape a) c' ≠ slice_of (shape a) c) ->
       getslice a j' k' time_idx = replicate (shape a).1.1.1 zero).
Proof.
  intros Ho Hr Ht Hp Hl.
  destruct (CMG_rwo2npy_shape _ _ _ _ _ _ _ _ _ _ Ho Hr)
    as (_ & out0 & out & Hf & ->).
  assert (Hin : c ∈ cs) by (apply list_elem_of_lookup; eauto).
  split; [|split; [|split]].
  - right. apply elem_of_app. left. apply list_elem_of_fmap.
    eexists. split; [done|]. by eapply fill_warns.
  - intros a0 out1. unfold fill_cell. rewrite decide_False by done.
    by rewrite !Z.sub_add.
  - rewrite <- (fill_matching _ _ 0 (Ok (zeros (shape a)), out0)) by done.
    by rewrite Hf.
  - intros j' k' Hsl Hno. apply getslice_zero. intros i.
    apply fill_frame in Hf as [_ Hfr]. rewrite Hfr; [done|].
    intros idx time' cs' c' Hlk -> Hin' Hl'. simpl in Hlk, Ht. simpl.
    rewrite Ht in Hlk. injection Hlk as <- <-.
    apply list_elem_of_lookup in Hin' as [q Hq].
    rewrite <- Hsl. by apply Hno with q.
Qed.

(** ** Well-formed reports *)

(** The store holds every address in use, and every committed time step
    holds a cell block. *)
Lemma exec_store_bound show_info a st :
  (Forall (fun l => l < length (store st)) (current_data st) ∧
   Forall (fun td => td_data td ≠ [] ∧
                     Forall (fun l => l < length (store st)) (td_data td))
     (pressure_data st)) ->
  Forall (fun l => l < length (store (exec show_info a st)))
    (current_data (exec show_info a st)) ∧
  Forall (fun td => td_data td ≠ [] ∧
                    Forall (fun l => l < length (store (exec show_info a st)))
                      (td_data td))
    (pressure_data (exec show_info a st)).
Proof.
  intros [Hc Hp].
  assert (Hcommit :
    Forall (fun td => td_data td ≠ [] ∧
                      Forall (fun l => l < length (store st)) (td_data td))
      (pressure_data (commit st))).
  { commit_cases_eq st Ht Hd; try done. apply Forall_app. split; [done|].
    by apply Forall_singleton. }
  destruct a; simpl.
  - by rewrite commit_store.
  - by rewrite commit_store, commit_current_data.
  - rewrite length_app. simpl. split.
    + apply Forall_app. split.
      * eapply Forall_impl; [exact Hc|]. simpl. lia.
      * apply Forall_singleton. lia.
    + eapply Forall_impl; [exact Hp|]. simpl. intros td [? Htd].
      split; [done|]. eapply Forall_impl; [exact Htd|]. simpl. lia.
  - rewrite add_values_store_length, add_values_current_data,
      add_values_pressure_data. done.
  - done.
Qed.

(** The indices of the cell blocks are 1-based when those of the headers
    are. *)
Lemma exec_one_based show_info a st :
  match a with AHeader k j => 1 <= k ∧ 1 <= j | _ => True end ->
  Forall (fun c => 1 <= cell_k c ∧ 1 <= cell_j c) (store st) ->
  Forall (fun c => 1 <= cell_k c ∧ 1 <= cell_j c)
    (store (exec show_info a st)).
Proof.
  intros Ha Hs. destruct a; simpl; rewrite ?commit_store; try done.
  - apply Forall_app. split; [done|]. by apply Forall_singleton.
  - unfold add_values. destruct (last (current_data st)) eqn:?; [|done].
    simpl. apply Forall_alter; [done|]. by intros [k j vs'] _.
Qed.

(** With markers that all match, fewer time steps are committed than
    opened while one is open. *)
Lemma exec_steps_bound show_info a st :
  a ≠ ABadMarker ->
  match current_time st with
  | None => pressure_data st = []
  | Some _ => length (pressure_data st) < length (time_values st)
  end ->
  match current_time (exec show_info a st) with
  | None => pressure_data (exec show_info a st) = []
  | Some _ => length (pressure_data (exec show_info a st))
              < length (time_values (exec show_info a st))
  end.
Proof.
  intros Ha Hs. destruct a; simpl; try done.
  - rewrite length_app, commit_time_values. simpl.
    commit_cases_eq st Ht Hd; rewrite ?length_app; simpl;
      try rewrite Hs; simpl; lia.
  - by rewrite add_values_current_time, add_values_pressure_data,
      add_values_time_values.
Qed.

(** Once a time step is open, an opened cell block is committed or
    pending. *)
Lemma exec_keeps_block show_info a st :
  is_Some (current_time st) ∧
    (current_data st ≠ [] ∨ pressure_data st ≠ []) ->
  is_Some (current_time (exec show_info a st)) ∧
    (current_data (exec show_info a st) ≠ []
     ∨ pressure_data (exec show_info a st) ≠ []).
Proof.
  intros [[t Ht] Hd].
  assert (Hcommit : pressure_data (commit st) ≠ []
                    ∨ (current_data st = [] ∧ pressure_data st ≠ [])).
  { unfold commit. rewrite Ht. destruct (current_data st) eqn:Hcd.
    - right. split; [done|]. by destruct Hd.
    - left. simpl. intros H. by apply app_eq_nil in H as [_ ?]. }
  destruct a; simpl.
  - split; [by eauto|]. right.
    destruct Hcommit as [?|[Hcd ?]]; [done|]. by rewrite commit_nothing.
  - rewrite commit_current_time, commit_current_data, Ht. split; [by eauto|].
    destruct Hcommit as [?|[Hcd ?]]; [by right|].
    right. by rewrite commit_nothing.
  - rewrite Ht. split; [by eauto|]. left.
    intros H. by apply app_eq_nil in H as [_ ?].
  - by rewrite add_values_current_time, add_values_current_data,
      add_values_pressure_data, Ht; eauto.
  - rewrite Ht. eauto.
Qed.

Lemma exec_keeps_time show_info a st :
  is_Some (current_time st) -> is_Some (current_time (exec show_info a st)).
Proof.
  intros Ht. destruct a; simpl;
    rewrite ?commit_current_time, ?add_values_current_time; eauto.
Qed.

Lemma markers_ok_classify property lines raw :
  markers_ok lines = true -> raw ∈ lines -> classify property raw ≠ ABadMarker.
Proof.
  unfold markers_ok. rewrite forallb_forall. intros Hall Hin Hc.
  specialize (Hall raw (proj1 (list_elem_of_In _ _) Hin)).
  rewrite (marker_line_classify property),
    (time_marker_classify property), Hc in Hall.
  done.
Qed.

Lemma headers_ok_classify property lines raw :
  headers_ok lines = true -> raw ∈ lines ->
  match classify property raw with
  | AHeader k j => 1 <= k ∧ 1 <= j
  | _ => True
  end.
Proof.
  unfold headers_ok. rewrite forallb_forall. intros Hall Hin.
  specialize (Hall raw (proj1 (list_elem_of_In _ _) Hin)).
  rewrite (header_classify property) in Hall.
  destruct (classify property raw); try done.
  apply andb_true_iff in Hall as [?%Nat.leb_le ?%Nat.leb_le]. done.
Qed.

Lemma markers_ok_count lines :
  markers_ok lines = true ->
  filter (fun raw => time_marker raw = true) lines
  = filter (fun raw => marker_line raw = true) lines.
Proof.
  unfold markers_ok. induction lines as [|raw lines IH]; [done|].
  cbn [forallb]. intros [Hr Hl]%andb_true_iff.
  rewrite !filter_cons, IH by done.
  unfold time_marker in *. destruct (marker_line raw); simpl in *.
  - by rewrite Hr.
  - done.
Qed.

(** What the scan of a well-formed report establishes. *)
Lemma scan_well_formed property show_info lines :
  markers_ok lines = true -> headers_ok lines = true ->
  let st := scan property show_info init lines in
  match current_time st with
  | None => pressure_data st = []
  | Some _ => length (pressure_data st) < length (time_values st)
  end ∧
  Forall (fun c => 1 <= cell_k c ∧ 1 <= cell_j c) (store st) ∧
  Forall (fun l => l < length (store st)) (current_data st) ∧
  Forall (fun td => td_data td ≠ [] ∧
                    Forall (fun l => l < length (store st)) (td_data td))
    (pressure_data st).
Proof.
  intros Hm Hh.
  apply (scan_invariant (fun st =>
    match current_time st with
    | None => pressure_data st = []
    | Some _ => length (pressure_data st) < length (time_values st)
    end ∧
    Forall (fun c => 1 <= cell_k c ∧ 1 <= cell_j c) (store st) ∧
    Forall (fun l => l < length (store st)) (current_data st) ∧
    Forall (fun td => td_data td ≠ [] ∧
                      Forall (fun l => l < length (store st)) (td_data td))
      (pressure_data st))).
  - intros st raw Hin (HA & HB & HC & HD).
    split; [|split].
    + apply exec_steps_bound; [by eapply markers_ok_classify|done].
    + apply exec_one_based; [by eapply headers_ok_classify|done].
    + by apply exec_store_bound.
  - simpl. repeat split; constructor.
Qed.

Lemma scan_has_cell_block property show_info lines :
  has_cell_block lines ->
  let st := scan property show_info init lines in
  is_Some (current_time st) ∧
    (current_data st ≠ [] ∨ pressure_data st ≠ []).
Proof.
  intros (l1 & m & l2 & h & l3 & -> & Hm & Hh). simpl.
  rewrite scan_app, scan_cons, scan_app, scan_cons.
  apply (scan_invariant (fun st =>
    is_Some (current_time st) ∧
      (current_data st ≠ [] ∨ pressure_data st ≠ []))).
  { intros st raw _. apply exec_keeps_block. }
  rewrite (header_classify property) in Hh.
  destruct (classify property h) as [| |k j| |]; try by destruct Hh.
  simpl. split.
  - apply (scan_invariant (fun st => is_Some (current_time st))).
    { intros st raw _. apply exec_keeps_time. }
    rewrite (time_marker_classify property) in Hm.
    destruct (classify property m); try done; simpl; eauto.
  - left. intros H. by apply app_eq_nil in H as [_ ?].
Qed.

Lemma parse_committed property show_info lines :
  committed (parse property show_info lines)
  = committed (commit (scan property show_info init lines)).
Proof. unfold parse. by destruct show_info. Qed.

Lemma parse_time_values property show_info lines :
  time_values (parse property show_info lines)
  = time_values (scan property show_info init lines).
Proof.
  unfold parse. destruct show_info; simpl; by rewrite commit_time_values.
Qed.

Lemma committed_cell st td c :
  Forall (fun td => td_data td ≠ [] ∧
                    Forall (fun l => l < length (store st)) (td_data td))
    (pressure_data st) ->
  td ∈ committed st -> c ∈ td.2 -> c ∈ store st.
Proof.
  intros HD Htd Hc. unfold committed in Htd.
  apply list_elem_of_fmap in Htd as (td0 & -> & Htd0). simpl in Hc.
  rewrite Forall_forall in HD. destruct (HD _ Htd0) as [_ Hb].
  unfold cells in Hc. apply list_elem_of_fmap in Hc as (l & -> & Hl).
  rewrite Forall_forall in Hb. specialize (Hb _ Hl).
  apply list_elem_of_lookup. exists l.
  by apply list_lookup_lookup_total_lt.
Qed.

Lemma all_cells_nonempty st :
  Forall (fun td => td_data td ≠ [] ∧
                    Forall (fun l => l < length (store st)) (td_data td))
    (pressure_data st) ->
  pressure_data st ≠ [] -> all_cells st ≠ [].
Proof.
  unfold all_cells, committed, cells.
  destruct (pressure_data st) as [|td pd]; [done|].
  intros [[Hne _] _]%Forall_cons _. simpl.
  by destruct (td_data td).
Qed.

Lemma elem_of_concat {A} (x : A) (ls : list (list A)) :
  x ∈ concat ls ↔ ∃ l, x ∈ l ∧ l ∈ ls.
Proof.
  rewrite list_elem_of_In, in_concat. split.
  - intros (l & ? & ?). exists l. by rewrite !list_elem_of_In.
  - intros (l & ? & ?). exists l. by rewrite <- !list_elem_of_In.
Qed.

Lemma all_cells_elem st c :
  c ∈ all_cells st ↔ ∃ td, td ∈ committed st ∧ c ∈ td.2.
Proof.
  unfold all_cells. rewrite elem_of_concat. split.
  - intros (cs & Hc & Hcs). apply list_elem_of_fmap in Hcs as (td & -> & ?).
    eauto.
  - intros (td & Htd & Hc). exists td.2. split; [done|].
    apply list_elem_of_fmap. eauto.
Qed.

(** C3: for every well-formed raw report (each time-marker line carries a
    number and a label, the header indices are 1-based) the parser has
    recorded as many time values as the input has time-marker lines, each
    line counted once in the order met; when some time step holds a cell
    block, [CMG_rwo2npy] returns an array and that number is the size of
    its fourth axis (without any cell block it raises before [n_time] is
    assigned); when the marker lines differ pairwise it is the number of
    different ones. *)
Theorem well_formed_n_time fs rwo_folder_path case_name property is_save
    save_folder_path show_info lines :
  fs_open fs (rwo_file_path rwo_folder_path case_name property) = Ok lines ->
  well_formed lines ->
  length (time_values (parse property show_info lines))
  = length (filter (fun raw => marker_line raw = true) lines)
  ∧ (has_cell_block lines ->
     ∃ a ev,
       CMG_rwo2npy fs rwo_folder_path case_name property is_save
         save_folder_path show_info = (Ok a, ev) ∧
       (shape a).2
       = length (filter (fun raw => marker_line raw = true) lines) ∧
       (NoDup (filter (fun raw => marker_line raw = true) lines) ->
        (shape a).2
        = size (list_to_set
                  (filter (fun raw => marker_line raw = true) lines)
                  : gset string))).
Proof.
  intros Ho (Hm & Hh).
  split; [by rewrite time_values_parse, markers_ok_count|]. intros Hb.
  destruct (scan_well_formed property show_info lines Hm Hh)
    as (HA & HB & HC & HD).
  pose proof (scan_has_cell_block property show_info lines Hb) as HJ.
  simpl in HA, HB, HC, HD, HJ.
  set (st := scan property show_info init lines) in *.
  (* the state after the last commit *)
  assert (HB' : Forall (fun c => 1 <= cell_k c ∧ 1 <= cell_j c)
                  (store (commit st))) by by rewrite commit_store.
  pose proof (exec_store_bound show_info ABadMarker st (conj HC HD))
    as [_ HD'].
  pose proof (exec_keeps_block show_info ABadMarker st HJ) as [_ HJ'].
  simpl in HD', HJ'.
  assert (Hne : pressure_data (commit st) ≠ []).
  { destruct HJ' as [Hcd|?]; [|done].
    rewrite commit_current_data in Hcd. destruct HJ as [[t Ht] _].
    unfold commit. rewrite Ht. destruct (current_data st); [done|].
    simpl. intros H. by apply app_eq_nil in H as [_ ?]. }
  assert (Hle : length (pressure_data (commit st)) <= length (time_values st)).
  { destruct HJ as [[t Ht] _]. rewrite Ht in HA. unfold commit. rewrite Ht.
    destruct (current_data st); simpl; rewrite ?length_app; simpl; lia. }
  set (ps := parse property show_info lines).
  assert (Hcm : committed ps = committed (commit st))
    by apply parse_committed.
  assert (Htv : time_values ps = time_values st)
    by apply parse_time_values.
  assert (Hall : all_cells ps = all_cells (commit st))
    by (unfold all_cells; by rewrite Hcm).
  destruct (infer_dims_total ps) as (ni & nj & nk & Hd).
  { rewrite Hall. by apply all_cells_nonempty. }
  pose proof (infer_dims_ok _ _ _ _ _ Hd) as (_ & _ & Hmax).
  destruct (fill_total ni (committed ps) 0
              (zeros (ni, nj, nk, length (time_values ps)))
              (if show_info
               then stdout ps ++ [MsgGrid ni nj nk (length (time_values ps))]
               else stdout ps))
    as (a & out & Hf & Hsh); [done| | |].
  { simpl. rewrite Hcm, Htv. unfold committed. by rewrite length_fmap. }
  { intros td c Htd Hc Hl. simpl.
    assert (Hc1 : c ∈ store (commit st)).
    { rewrite Hcm in Htd. by eapply committed_cell. }
    rewrite Forall_forall in HB'. destruct (HB' c Hc1) as [Hk Hj].
    destruct (Hmax c) as [Hj' Hk'].
    { apply all_cells_elem. eauto. }
    exists (cell_j c - 1), (cell_k c - 1). unfold slice_of. simpl.
    by rewrite !norm_index_pred by lia. }
  exists a. eexists. split.
  - rewrite (CMG_rwo2npy_open _ _ _ _ _ _ _ _ Ho). unfold assemble.
    fold ps. rewrite Hd, Hf. reflexivity.
  - assert (Hn : (shape a).2
                 = length (filter (fun raw => marker_line raw = true) lines)).
    { rewrite Hsh. simpl. fold ps. subst ps.
      by rewrite time_values_parse, markers_ok_count. }
    split; [done|]. intros Hnd. by rewrite size_list_to_set.
Qed.

(** ** Data lines *)

Lemma similar_refl st : similar st st.
Proof. by unfold similar; split_and!. Qed.

Lemma commit_reachable st l : reachable (commit st) l -> reachable st l.
Proof.
  commit_cases_eq st Ht Hd; try (intros H; exact H).
  unfold reachable; simpl. rewrite Ht, Hd.
  intros [?|(td & [Htd|Htd]%elem_of_app & Hl)]; [by left|by right; eauto|].
  apply list_elem_of_singleton in Htd as ->. simpl in Hl. left. eauto.
Qed.

Lemma commit_similar st1 st2 :
  similar st1 st2 -> similar (commit st1) (commit st2).
Proof.
  intros (Htv & Htd & Hpd & Hct & Hcd & Hout & Hlen & Hst).
  assert (Hr : ∀ l, reachable (commit st1) l ->
                    store st1 !! l = store st2 !! l)
    by (intros l Hl; by apply Hst, commit_reachable).
  revert Hr. unfold commit. rewrite <- Hct, <- Hcd, <- Htd, <- Hpd.
  destruct (current_time st1) eqn:E1, (current_data st1) eqn:E2; intros Hr;
    unfold similar; simpl; split_and!; try done; by rewrite ?E1, ?E2.
Qed.

Lemma alter_agree {A} (f : A -> A) (s1 s2 : list A) l x :
  s1 !! x = s2 !! x -> alter f l s1 !! x = alter f l s2 !! x.
Proof.
  intros H. destruct (decide (l = x)) as [->|Hne].
  - by rewrite !list_lookup_alter, H.
  - by rewrite !list_lookup_alter_ne.
Qed.

Lemma snoc_agree {A} (c : A) (s1 s2 : list A) x :
  length s1 = length s2 ->
  (x < length s1 -> s1 !! x = s2 !! x) ->
  (s1 ++ [c]) !! x = (s2 ++ [c]) !! x.
Proof.
  intros Hlen H. destruct (decide (x < length s1)) as [Hx|Hx].
  - rewrite !lookup_app_l by lia. by apply H.
  - rewrite !lookup_app_r by lia. by rewrite Hlen.
Qed.

(** Every action keeps two similar states similar. *)
Lemma exec_similar show_info a st1 st2 :
  similar st1 st2 -> similar (exec show_info a st1) (exec show_info a st2).
Proof.
  intros Hs. destruct a; simpl.
  - apply commit_similar in Hs
      as (Htv & Htd & Hpd & Hct & Hcd & Hout & Hlen & Hst).
    unfold open_time. rewrite Htv, Htd, Hpd, Hout.
    unfold similar; simpl; split_and!; try done. intros l [[_ Hl]|Hl].
    + by apply elem_of_nil in Hl.
    + apply Hst. right. by rewrite Hpd.
  - by apply commit_similar.
  - destruct Hs as (Htv & Htd & Hpd & Hct & Hcd & Hout & Hlen & Hst).
    unfold open_cell. rewrite Htv, Htd, Hpd, Hct, Hcd, Hout, Hlen.
    unfold similar; simpl; split_and!; try done;
      [by rewrite !length_app, Hlen|].
    intros l Hl. apply snoc_agree; [done|]. intros Hlt. apply Hst.
    destruct Hl as [[Ht Hl]|Hl]; [|by right; rewrite Hpd].
    left. rewrite Hct. split; [done|].
    apply elem_of_app in Hl as [Hl|Hl]; [by rewrite Hcd|].
    apply list_elem_of_singleton in Hl. lia.
  - destruct Hs as (Htv & Htd & Hpd & Hct & Hcd & Hout & Hlen & Hst).
    unfold add_values. rewrite <- Hcd.
    destruct (last (current_data st1)) as [l0|] eqn:Hl0;
      [|by unfold similar; split_and!].
    unfold similar; simpl; split_and!; try done;
      [by rewrite !length_alter|].
    intros l Hl. by apply alter_agree, Hst.
  - done.
Qed.

Lemma scan_similar property show_info lines : ∀ st1 st2,
  similar st1 st2 ->
  similar (scan property show_info st1 lines)
    (scan property show_info st2 lines).
Proof.
  induction lines as [|raw lines IH]; intros st1 st2 Hs; [done|].
  rewrite !scan_cons. by apply IH, exec_similar.
Qed.

(** Similar states commit the same cell blocks. *)
Lemma similar_committed st1 st2 :
  similar st1 st2 -> committed st1 = committed st2.
Proof.
  intros (Htv & Htd & Hpd & Hct & Hcd & Hout & Hlen & Hst).
  unfold committed. rewrite <- Hpd.
  apply list_fmap_ext. intros i td Hi. f_equal. unfold cells.
  apply list_fmap_ext. intros n l Hl.
  rewrite !list_lookup_total_alt. f_equal. apply Hst. right.
  exists td. split; apply list_elem_of_lookup; eauto.
Qed.

Lemma assemble_ext show_info st1 st2 :
  committed st1 = committed st2 -> time_values st1 = time_values st2 ->
  stdout st1 = stdout st2 ->
  assemble show_info st1 = assemble show_info st2.
Proof.
  intros Hc Ht Ho. unfold assemble, infer_dims. by rewrite Hc, Ht, Ho.
Qed.

Lemma similar_assemble property show_info l1 l2 :
  similar (scan property show_info init l1) (scan property show_info init l2) ->
  assemble show_info (parse property show_info l1)
  = assemble show_info (parse property show_info l2).
Proof.
  intros Hs. apply commit_similar in Hs.
  pose proof (similar_committed _ _ Hs) as Hc.
  destruct Hs as (Htv & _ & _ & _ & _ & Hout & _).
  apply assemble_ext.
  - by rewrite (parse_committed property show_info l1),
      (parse_committed property show_info l2).
  - rewrite (parse_time_values property show_info l1),
      (parse_time_values property show_info l2).
    by rewrite !commit_time_values in Htv.
  - unfold parse. destruct show_info; simpl; by rewrite ?Hout, ?Htv.
Qed.

Lemma scan_before_marker property show_info lines :
  Forall (fun raw => time_marker raw = false) lines ->
  ∀ st, current_time st = None ∧ pressure_data st = [] ->
    current_time (scan property show_info st lines) = None ∧
    pressure_data (scan property show_info st lines) = [].
Proof.
  intros Hall.
  apply (scan_invariant
           (fun st => current_time st = None ∧ pressure_data st = [])).
  intros st raw Hin [Ht Hp].
  rewrite Forall_forall in Hall. specialize (Hall raw Hin).
  rewrite (time_marker_classify property) in Hall.
  destruct (classify property raw); simpl; try done.
  - unfold commit. by rewrite Ht.
  - by rewrite add_values_current_time, add_values_pressure_data.
Qed.

Lemma scan_no_header_current property show_info lines :
  Forall (fun raw => header raw = None) lines ->
  ∀ st, current_data st = [] ->
    current_data (scan property show_info st lines) = [].
Proof.
  intros Hall. apply (scan_invariant (fun st => current_data st = [])).
  intros st raw Hin Hc.
  rewrite Forall_forall in Hall. specialize (Hall raw Hin).
  rewrite (header_classify property) in Hall.
  destruct (classify property raw); simpl; try done.
  - by rewrite commit_current_data.
  - by rewrite add_values_current_data.
Qed.

(** Values added where no reachable cell block is open change nothing
    that can be observed. *)
Lemma add_values_similar vs st :
  current_data st = [] ∨ (current_time st = None ∧ pressure_data st = []) ->
  similar (add_values vs st) st.
Proof.
  intros H. unfold add_values.
  destruct (last (current_data st)) as [l|] eqn:Hl; [|apply similar_refl].
  destruct H as [Hc|[Ht Hp]]; [by rewrite Hc in Hl|].
  unfold similar; simpl; split_and!; try done; [by rewrite length_alter|].
  unfold reachable; simpl. rewrite Ht, Hp.
  intros l' [[[? ?] _]|(td & Htd & _)]; [done|by apply elem_of_nil in Htd].
Qed.

(** The last address of [current_data] is the newest dictionary. *)
Lemma scan_last_is_newest property show_info lines l :
  last (current_data (scan property show_info init lines)) = Some l ->
  S l = length (store (scan property show_info init lines)).
Proof.
  revert l.
  apply (scan_invariant
           (fun st => ∀ l, last (current_data st) = Some l ->
                           S l = length (store st))); [|done].
  intros st raw _ IH l. destruct (classify property raw); simpl.
  - done.
  - rewrite commit_current_data, commit_store. apply IH.
  - rewrite last_snoc, length_app. simpl. intros [= <-]. lia.
  - rewrite add_values_current_data, add_values_store_length. apply IH.
  - apply IH.
Qed.

Lemma process_line_store property show_info st raw l c :
  store st !! l = Some c ->
  store (process_line property show_info st raw) !! l = Some c
  ∨ (last (current_data st) = Some l ∧
     ∃ vs, data_values property raw = Some vs ∧
           store (process_line property show_info st raw) !! l
           = Some (extend vs c)).
Proof.
  intros Hl. rewrite process_line_exec, (data_values_classify property).
  destruct (classify property raw) as [t d| |k j|vs|]; simpl.
  - left. by rewrite commit_store.
  - left. by rewrite commit_store.
  - left. rewrite lookup_app_l; [done|]. by eapply lookup_lt_Some.
  - unfold add_values. destruct (last (current_data st)) as [l0|] eqn:Hl0;
      [|by left].
    simpl. destruct (decide (l0 = l)) as [->|Hne].
    + right. split; [done|]. exists vs. split; [done|].
      by rewrite list_lookup_alter_eq, Hl.
    + left. by rewrite list_lookup_alter_ne.
  - by left.
Qed.

(** C10: a data line extends the most recently opened cell block and no
    other, by appending its values; without an open cell block (after a
    time marker and before the first K,J header of its time step, or
    before any time marker) it is dropped without error, and the run,
    array and effects, is the one of the report without that line. *)
Theorem data_line_extends_open_cell_block property show_info :
  (∀ st raw l c,
     store st !! l = Some c ->
     store (process_line property show_info st raw) !! l = Some c
     ∨ (last (current_data st) = Some l ∧
        ∃ vs, data_values property raw = Some vs ∧
              store (process_line property show_info st raw) !! l
              = Some (extend vs c)))
  ∧ (∀ lines l,
       last (current_data (scan property show_info init lines)) = Some l ->
       S l = length (store (scan property show_info init lines)))
  ∧ (∀ st raw,
       is_Some (data_values property raw) -> current_data st = [] ->
       process_line property show_info st raw = st)
  ∧ (∀ fs1 fs2 rwo_folder_path case_name is_save save_folder_path
       pre raw post,
       is_Some (data_values property raw) ->
       (∃ pre1 m pre2,
          pre = pre1 ++ m :: pre2 ∧ time_marker m = true ∧
          Forall (fun r => header r = None) pre2)
       ∨ Forall (fun r => time_marker r = false) pre ->
       fs_open fs1 (rwo_file_path rwo_folder_path case_name property)
       = Ok (pre ++ raw :: post) ->
       fs_open fs2 (rwo_file_path rwo_folder_path case_name property)
       = Ok (pre ++ post) ->
       CMG_rwo2npy fs1 rwo_folder_path case_name property is_save
         save_folder_path show_info
       = CMG_rwo2npy fs2 rwo_folder_path case_name property is_save
           save_folder_path show_info).
Proof.
  split_and!.
  - apply process_line_store.
  - apply scan_last_is_newest.
  - intros st raw [vs Hvs] Hc. rewrite process_line_exec.
    rewrite (data_values_classify property) in Hvs.
    destruct (classify property raw); try done. simpl.
    unfold add_values. by rewrite Hc.
  - intros fs1 fs2 folder case is_save save pre raw post [vs Hvs] Hpre Ho1 Ho2.
    rewrite (CMG_rwo2npy_open _ _ _ _ _ _ _ _ Ho1),
      (CMG_rwo2npy_open _ _ _ _ _ _ _ _ Ho2).
    rewrite (similar_assemble property show_info
               (pre ++ raw :: post) (pre ++ post)); [done|].
    rewrite !scan_app, scan_cons. apply scan_similar.
    rewrite (data_values_classify property) in Hvs.
    destruct (classify property raw); try done. simpl.
    apply add_values_similar.
    destruct Hpre as [(pre1 & m & pre2 & -> & Hm & Hno)|Hno].
    + left. rewrite scan_app, scan_cons.
      apply scan_no_header_current; [done|].
      rewrite (time_marker_classify property) in Hm.
      by destruct (classify property m).
    + right. by apply scan_before_marker.
Qed.

(** ** What every scan keeps *)

Lemma scan_store_bound property show_info lines :
  let st := scan property show_info init lines in
  Forall (fun l => l < length (store st)) (current_data st) ∧
  Forall (fun td => td_data td ≠ [] ∧
                    Forall (fun l => l < length (store st)) (td_data td))
    (pressure_data st).
Proof.
  apply (scan_invariant (fun st =>
    Forall (fun l => l < length (store st)) (current_data st) ∧
    Forall (fun td => td_data td ≠ [] ∧
                      Forall (fun l => l < length (store st)) (td_data td))
      (pressure_data st))).
  - intros st raw _. apply exec_store_bound.
  - split; constructor.
Qed.

Lemma exec_time_lists show_info a st :
  (length (time_values st) = length (time_dates st) ∧
   match current_time st with
   | None => pressure_data st = []
   | Some _ => time_values st ≠ []
   end) ->
  length (time_values (exec show_info a st))
  = length (time_dates (exec show_info a st)) ∧
  match current_time (exec show_info a st) with
  | None => pressure_data (exec show_info a st) = []
  | Some _ => time_values (exec show_info a st) ≠ []
  end.
Proof.
  intros [Hl Ht].
  assert (Hc : length (time_values (commit st)) = length (time_dates (commit st))
               ∧ match current_time (commit st) with
                 | None => pressure_data (commit st) = []
                 | Some _ => time_values (commit st) ≠ []
                 end).
  { commit_cases_eq st Ht' Hd; rewrite ?Ht'; done. }
  destruct a; simpl.
  - destruct Hc as [Hc _]. rewrite !length_app, Hc. split; [done|].
    intros H. by apply app_eq_nil in H as [_ ?].
  - done.
  - done.
  - by rewrite add_values_current_time, add_values_pressure_data,
      add_values_time_values;
      unfold add_values; destruct (last (current_data st)).
  - done.
Qed.

Lemma scan_time_lists property show_info lines :
  let st := scan property show_info init lines in
  length (time_values st) = length (time_dates st) ∧
  match current_time st with
  | None => pressure_data st = []
  | Some _ => time_values st ≠ []
  end.
Proof.
  apply (scan_invariant (fun st =>
    length (time_values st) = length (time_dates st) ∧
    match current_time st with
    | None => pressure_data st = []
    | Some _ => time_values st ≠ []
    end)).
  - intros st raw _. apply exec_time_lists.
  - done.
Qed.

Lemma committed_length st : length (committed st) = length (pressure_data st).
Proof. unfold committed. by rewrite length_fmap. Qed.

Lemma committed_nil st : committed st = [] ↔ pressure_data st = [].
Proof.
  unfold committed. destruct (pressure_data st); [done|]. by split.
Qed.

Lemma parse_store_bound property show_info lines :
  Forall (fun td => td_data td ≠ [] ∧
            Forall (fun l => l < length
                               (store (parse property show_info lines)))
              (td_data td))
    (pressure_data (parse property show_info lines)).
Proof.
  pose proof (scan_store_bound property show_info lines) as HB.
  cbn zeta in HB.
  pose proof (exec_store_bound show_info ABadMarker _ HB) as [_ HD].
  simpl in HD. rewrite parse_pressure_data.
  replace (store (parse property show_info lines))
    with (store (commit (scan property show_info init lines)));
    [done|].
  unfold parse. by destruct show_info.
Qed.

Lemma committed_nil_all_cells property show_info lines :
  committed (parse property show_info lines) = []
  ↔ all_cells (parse property show_info lines) = [].
Proof.
  split.
  - intros Hc. unfold all_cells. by rewrite Hc.
  - intros Ha. apply committed_nil.
    destruct (decide (pressure_data (parse property show_info lines) = []))
      as [|Hne]; [done|].
    exfalso.
    by apply (all_cells_nonempty _
                (parse_store_bound property show_info lines) Hne).
Qed.

(** X1: for every report, each committed time step holds at least one cell
    block, every address it holds is that of a stored dictionary, and when
    a time step is committed a time marker has matched: the time axis is
    not empty. *)
Theorem committed_steps_hold_cell_blocks property show_info lines :
  let st := parse property show_info lines in
  Forall (fun td => td.2 ≠ []) (committed st) ∧
  Forall (fun td => Forall (fun l => is_Some (store st !! l)) (td_data td))
    (pressure_data st) ∧
  (committed st ≠ [] -> 1 <= length (time_values st)) ∧
  (committed st = [] ↔ all_cells st = []).
Proof.
  cbn zeta.
  pose proof (scan_store_bound property show_info lines) as HB.
  pose proof (scan_time_lists property show_info lines) as [_ HT].
  cbn zeta in HB, HT.
  set (s := scan property show_info init lines) in *.
  pose proof (exec_store_bound show_info ABadMarker s HB) as [_ HD].
  simpl in HD.
  assert (Hpd : pressure_data (parse property show_info lines)
                = pressure_data (commit s)) by apply parse_pressure_data.
  assert (Hst : store (parse property show_info lines) = store (commit s)).
  { unfold parse. fold s. by destruct show_info. }
  assert (HD' : Forall (fun td => td_data td ≠ [] ∧
                   Forall (fun l => l < length
                             (store (parse property show_info lines)))
                     (td_data td))
                  (pressure_data (parse property show_info lines))).
  { by rewrite Hpd, Hst. }
  split_and!.
  - unfold committed. apply Forall_fmap.
    eapply Forall_impl; [exact HD'|]. simpl. intros td [Hne _].
    unfold cells. by destruct (td_data td).
  - eapply Forall_impl; [exact HD'|]. simpl. intros td [_ Hb].
    eapply Forall_impl; [exact Hb|]. simpl. intros l.
    apply lookup_lt_is_Some_2.
  - rewrite committed_nil, Hpd, parse_time_values. fold s. intros Hne.
    assert (Hct : is_Some (current_time s)).
    { destruct (current_time s) eqn:Hc; [eauto|].
      exfalso. apply Hne. unfold commit. by rewrite Hc. }
    destruct Hct as [t Hct]. rewrite Hct in HT.
    destruct (time_values s); [done|]. simpl. lia.
  - split.
    + intros Hc. unfold all_cells. by rewrite Hc.
    + intros Ha. apply committed_nil.
      destruct (decide (pressure_data (parse property show_info lines) = []))
        as [|Hne]; [done|].
      exfalso. by apply (all_cells_nonempty _ HD' Hne).
Qed.

(** ** The second and third axes *)

Lemma py_max_elem s m : py_max s = Ok m -> m ∈ s.
Proof.
  unfold py_max. case_decide as Hs; [done|]. intros [= <-].
  apply elem_of_elements, max_list_elem_of.
  intros He. apply Hs. by apply elements_empty_inv in He as ->%leibniz_equiv.
Qed.

Lemma infer_dims_attained st n_i n_j n_k n_time :
  infer_dims st = Ok (n_i, n_j, n_k, n_time) ->
  (∃ c, c ∈ all_cells st ∧ cell_j c = n_j) ∧
  (∃ c, c ∈ all_cells st ∧ cell_k c = n_k).
Proof.
  unfold infer_dims, all_cells. rewrite grid_scan_flat, scan_cells_spec.
  destruct (py_max (list_to_set (cell_k <$> _) ∪ ∅)) as [nk|] eqn:Hk; [|done].
  destruct (py_max (list_to_set (cell_j <$> _) ∪ ∅)) as [nj|] eqn:Hj; [|done].
  intros [= <- <- <- <-].
  apply py_max_elem in Hk. apply py_max_elem in Hj.
  rewrite (right_id_L ∅ (∪)), elem_of_list_to_set, list_elem_of_fmap in Hk, Hj.
  destruct Hk as (ck & -> & ?). destruct Hj as (cj & -> & ?).
  split; eauto.
Qed.

(** X2: whenever [CMG_rwo2npy] returns, the sizes of the second and third
    axes are the largest J index and the largest K index of the committed
    cell blocks: no committed cell block has a larger one, and some
    committed cell block has it. *)
Theorem n_j_n_k_are_largest_indices fs rwo_folder_path case_name property
    is_save save_folder_path show_info lines a ev :
  fs_open fs (rwo_file_path rwo_folder_path case_name property) = Ok lines ->
  CMG_rwo2npy fs rwo_folder_path case_name property is_save
    save_folder_path show_info = (Ok a, ev) ->
  let cs := all_cells (parse property show_info lines) in
  (∀ c, c ∈ cs -> cell_j c <= (shape a).1.1.2 ∧ cell_k c <= (shape a).1.2) ∧
  (∃ c, c ∈ cs ∧ cell_j c = (shape a).1.1.2) ∧
  (∃ c, c ∈ cs ∧ cell_k c = (shape a).1.2).
Proof.
  intros Ho Hr.
  destruct (CMG_rwo2npy_shape _ _ _ _ _ _ _ _ _ _ Ho Hr) as [Hd _].
  destruct (shape a) as [[[ni nj] nk] nt]. simpl.
  split; [by apply infer_dims_ok in Hd as (_ & _ & ?)|].
  by apply infer_dims_attained in Hd.
Qed.

(** ** The slices that no cell block addresses *)

(** X3: whenever [CMG_rwo2npy] returns, a slice [[:, j, k, t]] that no
    committed cell block of time step [t] with as many values as the first
    axis addresses holds zeros; so does every slice of a time index at
    which no time step is committed. *)
Theorem unaddressed_slice_is_zero fs rwo_folder_path case_name property
    is_save save_folder_path show_info lines a ev j k t :
  fs_open fs (rwo_file_path rwo_folder_path case_name property) = Ok lines ->
  CMG_rwo2npy fs rwo_folder_path case_name property is_save
    save_folder_path show_info = (Ok a, ev) ->
  (∀ time cs c,
     committed (parse property show_info lines) !! t = Some (time, cs) ->
     c ∈ cs -> length (cell_values c) = (shape a).1.1.1 ->
     slice_of (shape a) c ≠ (Some j, Some k)) ->
  getslice a j k t = replicate (shape a).1.1.1 zero.
Proof.
  intros Ho Hr Hno.
  destruct (CMG_rwo2npy_shape _ _ _ _ _ _ _ _ _ _ Ho Hr)
    as (_ & out0 & out & Hf & _).
  apply getslice_zero. intros i.
  apply fill_frame in Hf as [_ Hfr]. rewrite Hfr; [done|].
  intros idx time cs c Hlk -> Hin Hl. simpl in *. by eapply Hno.
Qed.

(** ** How a run ends *)

Lemma in_range_spec sh t c :
  in_range sh t c ↔
  t < sh.2 ∧
  (1 <= cell_j c <= sh.1.1.2 ∨ (cell_j c = 0 ∧ 1 <= sh.1.1.2)) ∧
  (1 <= cell_k c <= sh.1.2 ∨ (cell_k c = 0 ∧ 1 <= sh.1.2)).
Proof.
  unfold in_range, slice_of, norm_index. split.
  - intros (Ht & j' & k' & [= Hj Hk]). split; [done|].
    repeat case_decide; simplify_eq; try lia.
  - intros (Ht & Hj & Hk). split; [done|].
    repeat case_decide; try lia; eauto.
Qed.

Lemma fill_cell_cases n_i t time a out c :
  n_i = (shape a).1.1.1 ->
  (∃ a' out',
     fill_cell n_i t time (Ok a, out) c = (Ok a', out') ∧
     shape a' = shape a ∧
     (length (cell_values c) = n_i -> in_range (shape a) t c))
  ∨ (∃ out',
       fill_cell n_i t time (Ok a, out) c = (Raise IndexError, out') ∧
       length (cell_values c) = n_i ∧ ¬ in_range (shape a) t c).
Proof.
  intros Hn. unfold fill_cell.
  case_decide as Hl; [|left; eexists _, _; by split_and!].
  unfold setitem, in_range, slice_of.
  destruct (shape a) as [[[ni nj] nk] nt] eqn:Hs. simpl in *.
  destruct (norm_index nj _) as [j'|] eqn:Hj;
    [|right; eexists; split_and!; [done..|]; by intros (_ & ? & ? & [=])].
  destruct (norm_index nk _) as [k'|] eqn:Hk;
    [|right; eexists; split_and!; [done..|]; by intros (_ & ? & ? & [=])].
  destruct (norm_index nt (Z.of_nat t)) as [t'|] eqn:Ht.
  - apply norm_index_nat in Ht as [-> Ht].
    rewrite decide_True by congruence.
    left. eexists _, _. split_and!; [done|by simpl|eauto].
  - right. eexists. split_and!; [done..|]. intros (Hlt & _).
    by rewrite (norm_index_nat_lt _ _ Hlt) in Ht.
Qed.

Lemma fill_cells_cases n_i t time cs : ∀ a out,
  n_i = (shape a).1.1.1 ->
  (∃ a' out',
     foldl (fill_cell n_i t time) (Ok a, out) cs = (Ok a', out') ∧
     shape a' = shape a ∧
     ∀ c, c ∈ cs -> length (cell_values c) = n_i -> in_range (shape a) t c)
  ∨ (∃ out' c,
       foldl (fill_cell n_i t time) (Ok a, out) cs = (Raise IndexError, out') ∧
       c ∈ cs ∧ length (cell_values c) = n_i ∧ ¬ in_range (shape a) t c).
Proof.
  induction cs as [|c cs IH]; intros a out Hn.
  - left. eexists _, _. split_and!; [done..|]. by intros c ?%elem_of_nil.
  - cbn [foldl].
    destruct (fill_cell_cases n_i t time a out c Hn)
      as [(a1 & out1 & -> & Hs1 & Hc)|(out1 & -> & Hl & Hc)].
    + destruct (IH a1 out1) as [(a' & out' & -> & Hs' & Hall)
                               |(out' & c' & -> & Hin & Hl & Hno)];
        [congruence| |].
      * left. eexists _, _. split_and!; [done|congruence|].
        intros c' [->|Hin]%elem_of_cons Hl'; [by apply Hc|].
        rewrite <- Hs1. by apply Hall.
      * right. exists out', c'. rewrite <- Hs1.
        split_and!; [done|by right|done|done].
    + right. exists out1, c. rewrite fill_cells_raise.
      split_and!; [done|by left|done|done].
Qed.

Lemma fill_cases n_i pd : ∀ t a out,
  n_i = (shape a).1.1.1 ->
  (∃ a' out',
     fill n_i t pd (Ok a, out) = (Ok a', out') ∧ shape a' = shape a ∧
     ∀ idx time cs c,
       pd !! idx = Some (time, cs) -> c ∈ cs ->
       length (cell_values c) = n_i -> in_range (shape a) (t + idx) c)
  ∨ (∃ out' idx time cs c,
       fill n_i t pd (Ok a, out) = (Raise IndexError, out') ∧
       pd !! idx = Some (time, cs) ∧ c ∈ cs ∧
       length (cell_values c) = n_i ∧ ¬ in_range (shape a) (t + idx) c).
Proof.
  induction pd as [|[time cs] pd IH]; intros t a out Hn.
  - left. eexists _, _. split_and!; done.
  - cbn [fill].
    destruct (fill_cells_cases n_i t time cs a out Hn)
      as [(a1 & out1 & -> & Hs1 & Hc)|(out1 & c & -> & Hin & Hl & Hno)].
    + destruct (IH (S t) a1 out1)
        as [(a' & out' & -> & Hs' & Hall)
           |(out' & idx & time' & cs' & c' & -> & Hlk & Hin & Hl & Hno)];
        [congruence| |].
      * left. eexists _, _. split_and!; [done|congruence|].
        intros [|idx] time' cs' c' Hlk Hin Hl; simpl in Hlk.
        -- injection Hlk as <- <-. rewrite Nat.add_0_r. by apply Hc.
        -- rewrite <- Hs1. replace (t + S idx) with (S t + idx) by lia.
           by eapply Hall.
      * right. exists out', (S idx), time', cs', c'.
        rewrite <- Hs1. replace (t + S idx) with (S t + idx) by lia.
        split_and!; done.
    + right. exists out1, 0, time, cs, c. rewrite fill_raise, Nat.add_0_r.
      split_and!; done.
Qed.


(** ** The options that only print or save *)

Lemma exec_core si1 si2 a st1 st2 :
  core st1 = core st2 -> core (exec si1 a st1) = core (exec si2 a st2).
Proof.
  unfold core. intros [= Htv Htd Hpd Hct Hcd Hst].
  assert (Hc : core (commit st1) = core (commit st2)).
  { unfold core, commit. rewrite Hct, Hcd.
    destruct (current_time st2) eqn:E1, (current_data st2) eqn:E2; simpl;
      by rewrite ?Htv, ?Htd, ?Hpd, ?Hct, ?Hcd, ?Hst, ?E1, ?E2. }
  unfold core in Hc. injection Hc as Htv' Htd' Hpd' Hct' Hcd' Hst'.
  destruct a; simpl.
  - by rewrite Htv', Htd', Hpd', Hst'.
  - by rewrite Htv', Htd', Hpd', Hct', Hcd', Hst'.
  - by rewrite Htv, Htd, Hpd, Hct, Hcd, Hst.
  - unfold add_values. rewrite Hcd.
    destruct (last (current_data st2)); simpl;
      by rewrite Htv, Htd, Hpd, Hct, ?Hcd, Hst.
  - by rewrite Htv, Htd, Hpd, Hct, Hcd, Hst.
Qed.

Lemma scan_core property si1 si2 lines : ∀ st1 st2,
  core st1 = core st2 ->
  core (scan property si1 st1 lines) = core (scan property si2 st2 lines).
Proof.
  induction lines as [|raw lines IH]; intros st1 st2 Hc; [done|].
  rewrite !scan_cons. by apply IH, exec_core.
Qed.

Lemma parse_core property si1 si2 lines :
  committed (parse property si1 lines) = committed (parse property si2 lines)
  ∧ time_values (parse property si1 lines)
    = time_values (parse property si2 lines).
Proof.
  pose proof (scan_core property si1 si2 lines init init eq_refl) as Hc.
  pose proof (exec_core si1 si2 ABadMarker _ _ Hc) as Hc'. simpl in Hc'.
  unfold core in Hc'. injection Hc' as Htv _ Hpd _ _ Hst.
  rewrite (parse_committed property si1), (parse_committed property si2),
    (parse_time_values property si1), (parse_time_values property si2).
  rewrite !commit_time_values in Htv. split; [|done].
  unfold committed. by rewrite Hpd, Hst.
Qed.

Lemma fill_result n_i pd t acc acc' :
  acc.1 = acc'.1 -> (fill n_i t pd acc).1 = (fill n_i t pd acc').1.
Proof.
  intros H. rewrite (fill_matching n_i pd t acc acc' H).
  symmetry. by apply fill_matching.
Qed.

Lemma assemble_result si1 si2 st1 st2 :
  committed st1 = committed st2 -> time_values st1 = time_values st2 ->
  (assemble si1 st1).1 = (assemble si2 st2).1.
Proof.
  intros Hc Ht. unfold assemble, infer_dims. rewrite Hc, Ht.
  destruct (grid_scan (committed st2)) as [[ks js] ic].
  destruct (py_max ks); [|done]. destruct (py_max js); [|done].
  by apply fill_result.
Qed.


(** ** Lines that are not read *)

Lemma classify_skip property raw :
  marker_line raw = false -> header raw = None ->
  data_values property raw = None -> classify property raw = ASkip.
Proof. unfold classify. by intros -> -> ->. Qed.

Lemma banner_not_marker line :
  Str.is_empty line = true ∨ Str.startswith line "RESULTS" = true ->
  Str.startswith line "**  TIME =" = false ∧
  Str.startswith line "** K =" = false.
Proof.
  unfold Str.startswith. destruct line as [|c l]; [done|].
  intros [?|H]; [done|].
  destruct c as [[] [] [] [] [] [] [] []]; try discriminate H;
    split; reflexivity.
Qed.

Lemma not_data_line property raw :
  Str.is_empty (Str.strip raw) = true
  ∨ Str.startswith (Str.strip raw) "**" = true
  ∨ Str.startswith (Str.strip raw) "RESULTS" = true
  ∨ Str.startswith (Str.strip raw) property = true
  ∨ mapM float (Str.split (Str.strip raw)) = None ->
  data_values property raw = None.
Proof.
  unfold data_values, is_data_line. intros H.
  destruct (Str.startswith (Str.strip raw) "**  TIME ="); [done|].
  destruct (Str.startswith (Str.strip raw) "** K ="); [done|].
  destruct H as [H|[H|[H|[H|H]]]]; rewrite H; simpl;
    rewrite ?andb_false_r; try done.
  by destruct (_ && _).
Qed.

(** X6: a blank line, a line that starts with [RESULTS], and, unless it is
    a time-marker line or matches the header pattern, a line that starts
    with [**] or with the property name or holds a token that [float]
    rejects, leaves the parser state as it is: the run on the report is
    the run on the report without that line.  A line with one token that
    is not a number is dropped whole. *)
Theorem unread_line_changes_nothing fs1 fs2 rwo_folder_path case_name
    property is_save save_folder_path show_info pre raw post :
  (Str.is_empty (Str.strip raw) = true
   ∨ Str.startswith (Str.strip raw) "RESULTS" = true)
  ∨ (marker_line raw = false ∧ header raw = None ∧
     (Str.startswith (Str.strip raw) "**" = true
      ∨ Str.startswith (Str.strip raw) property = true
      ∨ mapM float (Str.split (Str.strip raw)) = None)) ->
  fs_open fs1 (rwo_file_path rwo_folder_path case_name property)
  = Ok (pre ++ raw :: post) ->
  fs_open fs2 (rwo_file_path rwo_folder_path case_name property)
  = Ok (pre ++ post) ->
  (∀ st, process_line property show_info st raw = st) ∧
  CMG_rwo2npy fs1 rwo_folder_path case_name property is_save
    save_folder_path show_info
  = CMG_rwo2npy fs2 rwo_folder_path case_name property is_save
      save_folder_path show_info.
Proof.
  intros H Ho1 Ho2.
  assert (Hs : classify property raw = ASkip).
  { destruct H as [H|(Hm & Hh & H)].
    - destruct (banner_not_marker _ H) as [Ht Hk].
      apply classify_skip.
      + exact Ht.
      + unfold header. by rewrite Ht, Hk.
      + apply not_data_line. tauto.
    - apply classify_skip; [done|done|]. apply not_data_line. tauto. }
  assert (Hp : ∀ st, process_line property show_info st raw = st).
  { intros st. by rewrite process_line_exec, Hs. }
  split; [done|].
  rewrite (CMG_rwo2npy_open _ _ _ _ _ _ _ _ Ho1),
    (CMG_rwo2npy_open _ _ _ _ _ _ _ _ Ho2).
  assert (Hscan : scan property show_info init (pre ++ raw :: post)
                  = scan property show_info init (pre ++ post)).
  { rewrite !scan_app, scan_cons. by rewrite Hs. }
  unfold parse. by rewrite Hscan.
Qed.

(** ** Reading a cell block *)

Lemma classify_marker property raw :
  time_marker raw = true -> ∃ t d, classify property raw = AMarker t d.
Proof.
  rewrite (time_marker_classify property).
  destruct (classify property raw); try done. eauto.
Qed.

Lemma classify_header property raw k j :
  header raw = Some (k, j) -> classify property raw = AHeader k j.
Proof.
  rewrite (header_classify property).
  destruct (classify property raw); try done. by intros [= -> ->].
Qed.

Lemma classify_data property raw vs :
  data_values property raw = Some vs -> classify property raw = AData vs.
Proof.
  rewrite (data_values_classify property).
  destruct (classify property raw); try done. by intros [= ->].
Qed.

Lemma classify_bad_marker property raw :
  marker_line raw = true -> time_marker raw = false ->
  classify property raw = ABadMarker.
Proof.
  rewrite (marker_line_classify property), (time_marker_classify property).
  by destruct (classify property raw).
Qed.

Lemma scan_data_lines property show_info ds vss :
  Forall2 (fun d vs => data_values property d = Some vs) ds vss ->
  ∀ st, scan property show_info st ds
        = foldl (fun s vs => add_values vs s) st vss.
Proof.
  induction 1 as [|d vs ds vss Hd _ IH]; intros st; [done|].
  rewrite scan_cons, (classify_data _ _ _ Hd). apply IH.
Qed.

Lemma extend_nil c : extend [] c = c.
Proof. destruct c. unfold extend. simpl. by rewrite app_nil_r. Qed.

Lemma extend_extend vs ws c : extend ws (extend vs c) = extend (vs ++ ws) c.
Proof. unfold extend. simpl. by rewrite app_assoc. Qed.

(** The values of consecutive data lines go, in order, to the cell block
    that is open. *)
Lemma add_values_run vss : ∀ st l,
  last (current_data st) = Some l ->
  let st' := foldl (fun s vs => add_values vs s) st vss in
  time_values st' = time_values st ∧ time_dates st' = time_dates st ∧
  pressure_data st' = pressure_data st ∧
  current_time st' = current_time st ∧
  current_data st' = current_data st ∧ stdout st' = stdout st ∧
  store st' = alter (extend (concat vss)) l (store st).
Proof.
  induction vss as [|vs vss IH]; intros st l Hl; cbn [foldl concat].
  - split_and!; try done. symmetry. apply list_alter_id, extend_nil.
  - destruct (IH (add_values vs st) l)
      as (-> & -> & -> & -> & -> & -> & ->).
    { by rewrite add_values_current_data. }
    rewrite add_values_time_values, add_values_pressure_data,
      add_values_current_time, add_values_current_data.
    unfold add_values. rewrite Hl. simpl. split_and!; try done.
    rewrite list_alter_alter_eq. apply list_alter_ext; [|done].
    intros c _. apply extend_extend.
Qed.

Lemma scan_first_block property show_info m h ds k j vss :
  time_marker m = true -> header h = Some (k, j) ->
  Forall2 (fun d vs => data_values property d = Some vs) ds vss ->
  let st := scan property show_info init (m :: h :: ds) in
  ∃ t d,
    match_time (Str.strip m) = Some (t, d) ∧
    time_values st = [t] ∧ time_dates st = [d] ∧ pressure_data st = [] ∧
    current_time st = Some t ∧ current_data st = [0] ∧
    store st = [CellData k j (concat vss)].
Proof.
  intros Hm Hh Hd. cbn zeta.
  assert (Hmt : ∃ t d, match_time (Str.strip m) = Some (t, d)
                       ∧ classify property m = AMarker t d).
  { unfold time_marker in Hm. apply andb_true_iff in Hm as [Hml Hm].
    apply bool_decide_eq_true in Hm as [[t d] Hm].
    exists t, d. split; [done|]. unfold classify. by rewrite Hml, Hm. }
  destruct Hmt as (t & d & Hmt & Hc).
  exists t, d. split; [done|].
  rewrite !scan_cons, Hc, (classify_header _ _ _ _ Hh),
    (scan_data_lines _ _ _ _ Hd).
  match goal with
  | |- context [foldl _ ?s vss] =>
      destruct (add_values_run vss s 0 eq_refl)
        as (-> & -> & -> & -> & -> & _ & ->)
  end.
  simpl. by split_and!.
Qed.

Lemma parse_first_block property show_info m h ds k j vss :
  time_marker m = true -> header h = Some (k, j) ->
  Forall2 (fun d vs => data_values property d = Some vs) ds vss ->
  ∃ t,
    committed (parse property show_info (m :: h :: ds))
    = [(t, [CellData k j (concat vss)])] ∧
    time_values (parse property show_info (m :: h :: ds)) = [t].
Proof.
  intros Hm Hh Hd.
  destruct (scan_first_block property show_info m h ds k j vss Hm Hh Hd)
    as (t & d & _ & Htv & Htd & Hpd & Hct & Hcd & Hst).
  exists t. rewrite parse_committed, parse_time_values. split; [|done].
  set (s := scan property show_info init (m :: h :: ds)) in *.
  unfold committed, commit. rewrite Hct, Hcd. simpl.
  by rewrite Hpd, Hst.
Qed.

Lemma first_length_single c : first_length [c] = length (cell_values c).
Proof.
  rewrite first_length_cons. case_decide as H; [|done]. by rewrite H.
Qed.

(** X7: a report made of a time marker, a K,J header with 1-based indices
    and data lines gives an array of shape [(n, J, K, 1)], where [n] is the
    number of values of all the data lines together; its slice
    [[:, J-1, K-1, 0]] holds these values in the order read, line after
    line, and every other slice holds zeros. *)
Theorem single_cell_block_report fs rwo_folder_path case_name property
    is_save save_folder_path show_info m h ds k j vss :
  fs_open fs (rwo_file_path rwo_folder_path case_name property)
  = Ok (m :: h :: ds) ->
  time_marker m = true -> header h = Some (k, j) -> 1 <= k -> 1 <= j ->
  Forall2 (fun d vs => data_values property d = Some vs) ds vss ->
  ∃ a ev,
    CMG_rwo2npy fs rwo_folder_path case_name property is_save
      save_folder_path show_info = (Ok a, ev) ∧
    shape a = (length (concat vss), j, k, 1) ∧
    getslice a (j - 1) (k - 1) 0 = concat vss ∧
    ∀ j0 k0 t0, (j0, k0, t0) ≠ (j - 1, k - 1, 0) ->
      getslice a j0 k0 t0 = replicate (length (concat vss)) zero.
Proof.
  intros Ho Hm Hh Hk Hj Hd.
  destruct (parse_first_block property show_info m h ds k j vss Hm Hh Hd)
    as (t & Hcm & Htv).
  set (ps := parse property show_info (m :: h :: ds)) in *.
  set (c := CellData k j (concat vss)) in *.
  assert (Hall : all_cells ps = [c]) by (unfold all_cells; by rewrite Hcm).
  destruct (infer_dims_total ps) as (ni & nj & nk & Hdim);
    [by rewrite Hall|].
  rewrite Htv in Hdim. simpl in Hdim.
  pose proof (infer_dims_ok _ _ _ _ _ Hdim) as (Hni & _ & _).
  pose proof (infer_dims_attained _ _ _ _ _ Hdim) as [(cj & Hcj & Hnj)
                                                       (ck & Hck & Hnk)].
  rewrite Hall in Hni, Hcj, Hck.
  apply list_elem_of_singleton in Hcj as ->.
  apply list_elem_of_singleton in Hck as ->.
  rewrite first_length_single in Hni. simpl in Hni, Hnj, Hnk.
  subst ni nj nk.
  set (sh := (length (concat vss), j, k, 1)) in *.
  assert (Hsl : slice_of sh c = (Some (j - 1), Some (k - 1))).
  { unfold slice_of, sh. simpl. by rewrite !norm_index_pred by lia. }
  destruct (fill_total (length (concat vss)) (committed ps) 0 (zeros sh)
              (if show_info
               then stdout ps ++ [MsgGrid (length (concat vss)) j k 1]
               else stdout ps))
    as (a & out & Hf & Hsh); [done|by rewrite Hcm| |].
  { rewrite Hcm. intros td c' ->%list_elem_of_singleton
      ->%list_elem_of_singleton _. eauto. }
  assert (Ha : assemble show_info ps = (Ok a, out)).
  { unfold assemble. rewrite Hdim. exact Hf. }
  exists a. eexists. split.
  { rewrite (CMG_rwo2npy_open _ _ _ _ _ _ _ _ Ho). fold ps.
    rewrite Ha. reflexivity. }
  split; [done|]. rewrite Hcm in Hf. split.
  - destruct (fill_written _ _ _ _ _ _ _ 0 t [] c [] Hf eq_refl eq_refl)
      as (j' & k' & Hsl' & _ & _ & Hit).
    { intros c' Hin. by apply elem_of_nil in Hin. }
    simpl in Hsl'. rewrite Hsl in Hsl'. injection Hsl' as <- <-.
    apply getslice_items; [by rewrite Hsh|done].
  - intros j0 k0 t0 Hne.
    replace (length (concat vss)) with (shape a).1.1.1 by by rewrite Hsh.
    apply getslice_zero. intros i.
    apply fill_frame in Hf as [_ Hfr]. rewrite Hfr; [done|].
    intros [|idx] time cs c' Hlk Ht0 Hin _; [|done].
    injection Hlk as <- <-. apply list_elem_of_singleton in Hin as ->.
    simpl. rewrite Hsl. intros [= <- <-]. apply Hne. by rewrite Ht0.
Qed.

(** ** A time marker without label *)

Lemma assemble_index_error show_info st sh t time cs c :
  infer_dims st = Ok sh ->
  committed st !! t = Some (time, cs) -> c ∈ cs ->
  length (cell_values c) = sh.1.1.1 -> ¬ in_range sh t c ->
  (assemble show_info st).1 = Raise IndexError.
Proof.
  intros Hd Hlk Hin Hl Hno. unfold assemble. rewrite Hd.
  destruct sh as [[[ni nj] nk] nt].
  match goal with
  | |- context [fill ?n ?t0 ?pd (Ok ?z, ?o)] =>
      destruct (fill_cases n pd t0 z o eq_refl)
        as [(a' & out' & -> & _ & Hall)|(out' & _ & _ & _ & _ & -> & _)]
  end; [|done].
  exfalso. apply Hno. by apply (Hall t time cs c).
Qed.

Lemma scan_marker_without_label property show_info m h ds1 b ds2 k j
    vss1 vss2 :
  time_marker m = true -> header h = Some (k, j) ->
  Forall2 (fun d vs => data_values property d = Some vs) ds1 vss1 ->
  marker_line b = true -> time_marker b = false ->
  Forall2 (fun d vs => data_values property d = Some vs) ds2 vss2 ->
  ∃ t,
    committed (parse property show_info (m :: h :: ds1 ++ b :: ds2))
    = [(t, [CellData k j (concat (vss1 ++ vss2))]);
       (t, [CellData k j (concat (vss1 ++ vss2))])] ∧
    time_values (parse property show_info (m :: h :: ds1 ++ b :: ds2)) = [t].
Proof.
  intros Hm Hh Hd1 Hb Hnb Hd2.
  destruct (scan_first_block property show_info m h ds1 k j vss1 Hm Hh Hd1)
    as (t & d & _ & Htv & Htd & Hpd & Hct & Hcd & Hst).
  exists t. rewrite parse_committed, parse_time_values.
  change (m :: h :: ds1 ++ b :: ds2) with ((m :: h :: ds1) ++ b :: ds2).
  rewrite scan_app, scan_cons, (classify_bad_marker _ _ Hb Hnb),
    (scan_data_lines _ _ _ _ Hd2).
  set (s := scan property show_info init (m :: h :: ds1)) in *.
  assert (Hc : commit s
               = PState (time_values s) (time_dates s)
                   [TimeData t d [0]] (current_time s) (current_k s)
                   (current_j s) (current_data s) (store s) (stdout s)).
  { unfold commit. by rewrite Hct, Hcd, Hpd, Htd. }
  simpl exec.
  destruct (add_values_run vss2 (commit s) 0)
    as (Htv' & Htd' & Hpd' & Hct' & Hcd' & _ & Hst').
  { by rewrite commit_current_data, Hcd. }
  cbn zeta in *.
  set (s' := foldl (fun s0 vs => add_values vs s0) (commit s) vss2) in *.
  rewrite Htv', commit_time_values. split; [|done].
  rewrite commit_current_time in Hct'. rewrite commit_current_data in Hcd'.
  rewrite commit_store, Hst in Hst'. rewrite Hc in Hpd', Htd'.
  simpl in Hpd', Htd', Hst'.
  unfold committed, commit. rewrite Hct', Hct, Hcd', Hcd. simpl.
  rewrite Hpd', Hst'. simpl. unfold extend. simpl.
  by rewrite concat_app.
Qed.

(** X8: a time-marker line without label does not open a time step: it
    commits the one that is open and leaves it open.  In a report made of
    a time marker, a K,J header, data lines, such a line and more data
    lines, the time step is committed twice, both commits hold the one
    cell block with all the values, those read after the first commit
    included (the committed list is a shallow copy), and the run raises
    IndexError: the second commit has no place on the time axis. *)
Theorem marker_without_label_raises fs rwo_folder_path case_name property
    is_save save_folder_path show_info m h ds1 b ds2 k j vss1 vss2 :
  fs_open fs (rwo_file_path rwo_folder_path case_name property)
  = Ok (m :: h :: ds1 ++ b :: ds2) ->
  time_marker m = true -> header h = Some (k, j) ->
  Forall2 (fun d vs => data_values property d = Some vs) ds1 vss1 ->
  marker_line b = true -> time_marker b = false ->
  Forall2 (fun d vs => data_values property d = Some vs) ds2 vss2 ->
  (∃ t,
     committed (parse property show_info (m :: h :: ds1 ++ b :: ds2))
     = [(t, [CellData k j (concat (vss1 ++ vss2))]);
        (t, [CellData k j (concat (vss1 ++ vss2))])]) ∧
  (CMG_rwo2npy fs rwo_folder_path case_name property is_save
     save_folder_path show_info).1 = Raise IndexError.
Proof.
  intros Ho Hm Hh Hd1 Hb Hnb Hd2.
  destruct (scan_marker_without_label property show_info m h ds1 b ds2 k j
              vss1 vss2 Hm Hh Hd1 Hb Hnb Hd2) as (t & Hcm & Htv).
  split; [by eauto|].
  set (ps := parse property show_info (m :: h :: ds1 ++ b :: ds2)) in *.
  set (c := CellData k j (concat (vss1 ++ vss2))) in *.
  assert (Hall : all_cells ps = [c; c]) by (unfold all_cells; by rewrite Hcm).
  destruct (infer_dims_total ps) as (ni & nj & nk & Hdim);
    [by rewrite Hall|].
  rewrite Htv in Hdim. simpl in Hdim.
  pose proof (infer_dims_ok _ _ _ _ _ Hdim) as (Hni & _ & _).
  rewrite Hall, first_length_cons, first_length_single in Hni.
  assert (Hni' : ni = length (cell_values c)).
  { rewrite Hni. by case_decide. }
  assert (Ha : (assemble show_info ps).1 = Raise IndexError).
  { apply (assemble_index_error show_info ps (ni, nj, nk, 1) 1 t [c] c Hdim).
    - by rewrite Hcm.
    - by left.
    - done.
    - intros [Hlt _]. simpl in Hlt. lia. }
  rewrite (CMG_rwo2npy_open _ _ _ _ _ _ _ _ Ho). fold ps.
  by destruct (assemble show_info ps) as [[a|e] out]; simpl in *; subst.
Qed.

(** ** Before the first time marker *)

Lemma commit_shifted g st1 st2 :
  shifted g st1 st2 -> shifted g (commit st1) (commit st2).
Proof.
  intros (Htv & Htd & Hpd & Hct & Hcd & Hout & Hst).
  unfold commit. rewrite Hct, Hcd.
  destruct (current_time st2) as [t|] eqn:E1; simpl;
    [|by unfold shifted; rewrite ?E1; split_and!].
  destruct (current_data st2) as [|l ls] eqn:E2; simpl;
    [by unfold shifted; rewrite ?E1, ?E2; split_and!|].
  unfold shifted; simpl; rewrite ?E1, ?E2; split_and!; try done.
  rewrite Hpd, fmap_app, Htd. done.
Qed.

Lemma exec_shifted show_info a g st1 st2 :
  shifted g st1 st2 ->
  shifted g (exec show_info a st1) (exec show_info a st2).
Proof.
  intros Hs. destruct a; simpl.
  - apply commit_shifted in Hs
      as (Htv & Htd & Hpd & Hct & Hcd & Hout & Hst).
    unfold open_time, shifted; simpl.
    rewrite Htv, Htd, Hpd, Hout, Hst. by split_and!.
  - by apply commit_shifted.
  - destruct Hs as (Htv & Htd & Hpd & Hct & Hcd & Hout & Hst).
    unfold open_cell, shifted; simpl.
    rewrite Htv, Htd, Hpd, Hct, Hcd, Hout, Hst. split_and!; try done.
    + by rewrite fmap_app, length_app.
    + by rewrite app_assoc.
  - destruct Hs as (Htv & Htd & Hpd & Hct & Hcd & Hout & Hst).
    unfold add_values. rewrite Hcd, fmap_last.
    destruct (last (current_data st2)) as [l|] eqn:Hl; simpl;
      [|by unfold shifted; split_and!].
    unfold shifted; simpl. split_and!; try done.
    by rewrite Hst, alter_app_r.
  - done.
Qed.

Lemma scan_shifted property show_info lines g : ∀ st1 st2,
  shifted g st1 st2 ->
  shifted g (scan property show_info st1 lines)
    (scan property show_info st2 lines).
Proof.
  induction lines as [|raw lines IH]; intros st1 st2 Hs; [done|].
  rewrite !scan_cons. by apply IH, exec_shifted.
Qed.

Lemma shifted_committed g st1 st2 :
  shifted g st1 st2 -> committed st1 = committed st2.
Proof.
  intros (_ & _ & Hpd & _ & _ & _ & Hst).
  unfold committed. rewrite Hpd, Hst, <- list_fmap_compose.
  apply list_fmap_ext. intros i td _. simpl. f_equal.
  unfold cells. simpl. rewrite <- list_fmap_compose.
  apply list_fmap_ext. intros n l _. simpl.
  rewrite lookup_total_app_r by lia. f_equal. lia.
Qed.

Lemma scan_before_marker_all property show_info lines :
  Forall (fun raw => time_marker raw = false) lines ->
  let st := scan property show_info init lines in
  time_values st = [] ∧ time_dates st = [] ∧ pressure_data st = [] ∧
  current_time st = None ∧ stdout st = [].
Proof.
  intros Hall.
  apply (scan_invariant (fun st =>
    time_values st = [] ∧ time_dates st = [] ∧ pressure_data st = [] ∧
    current_time st = None ∧ stdout st = [])); [|done].
  intros st raw Hin (Htv & Htd & Hpd & Hct & Hout).
  rewrite Forall_forall in Hall. specialize (Hall raw Hin).
  rewrite (time_marker_classify property) in Hall.
  destruct (classify property raw); simpl; try done.
  - unfold commit. by rewrite Hct.
  - unfold add_values. by destruct (last (current_data st)).
Qed.

(** X9: nothing that stands before the first line that matches the
    time-marker pattern reaches the result: the run on the report is the
    run on the report from that line on, cell blocks opened earlier and
    their values included; and a report without such a line raises the
    ValueError of [max]. *)
Theorem lines_before_first_marker_are_dropped rwo_folder_path case_name
    property is_save save_folder_path show_info pre :
  Forall (fun raw => time_marker raw = false) pre ->
  (∀ fs,
     fs_open fs (rwo_file_path rwo_folder_path case_name property) = Ok pre ->
     (CMG_rwo2npy fs rwo_folder_path case_name property is_save
        save_folder_path show_info).1 = Raise ValueError)
  ∧ (∀ fs1 fs2 m post,
       time_marker m = true ->
       fs_open fs1 (rwo_file_path rwo_folder_path case_name property)
       = Ok (pre ++ m :: post) ->
       fs_open fs2 (rwo_file_path rwo_folder_path case_name property)
       = Ok (m :: post) ->
       CMG_rwo2npy fs1 rwo_folder_path case_name property is_save
         save_folder_path show_info
       = CMG_rwo2npy fs2 rwo_folder_path case_name property is_save
           save_folder_path show_info).
Proof.
  intros Hpre.
  destruct (scan_before_marker_all property show_info pre Hpre)
    as (Htv & Htd & Hpd & Hct & Hout).
  set (s := scan property show_info init pre) in *. split.
  - intros fs Ho. rewrite (CMG_rwo2npy_open _ _ _ _ _ _ _ _ Ho).
    unfold assemble. rewrite infer_dims_empty; [done|].
    apply committed_nil_all_cells, committed_nil.
    rewrite parse_pressure_data. fold s. unfold commit. by rewrite Hct.
  - intros fs1 fs2 m post Hm Ho1 Ho2.
    rewrite (CMG_rwo2npy_open _ _ _ _ _ _ _ _ Ho1),
      (CMG_rwo2npy_open _ _ _ _ _ _ _ _ Ho2).
    destruct (classify_marker property m Hm) as (t & d & Hc).
    assert (Hsh : shifted (store s)
              (scan property show_info init (pre ++ m :: post))
              (scan property show_info init (m :: post))).
    { rewrite scan_app, !scan_cons, Hc. fold s. apply scan_shifted.
      simpl. rewrite (commit_nothing init) by done.
      assert (Hcs : commit s = s) by (unfold commit; by rewrite Hct).
      rewrite Hcs. unfold open_time, shifted; simpl.
      rewrite Htv, Htd, Hpd, Hout, app_nil_r. split_and!; done. }
    apply commit_shifted in Hsh.
    pose proof (shifted_committed _ _ _ Hsh) as Hcm.
    destruct Hsh as (Htv' & _ & _ & _ & _ & Hout' & _).
    pose proof Htv' as Htc. rewrite !commit_time_values in Htv'.
    rewrite (assemble_ext show_info
               (parse property show_info (pre ++ m :: post))
               (parse property show_info (m :: post))); [done| | |].
    + by rewrite (parse_committed property show_info (pre ++ m :: post)),
        (parse_committed property show_info (m :: post)).
    + by rewrite (parse_time_values property show_info (pre ++ m :: post)),
        (parse_time_values property show_info (m :: post)).
    + unfold parse. destruct show_info; simpl; by rewrite ?Hout', ?Htc.
Qed.

(** ** The order of the committed time steps *)

Lemma sublist_same_length {A} (l1 l2 : list A) :
  l1 `sublist_of` l2 -> length l1 = length l2 -> l1 = l2.
Proof.
  induction 1 as [|x l1 l2 Hs IH|x l1 l2 Hs IH]; simpl; intros Hl.
  - done.
  - f_equal. apply IH. lia.
  - apply sublist_length in Hs. lia.
Qed.

Lemma exec_times_ordered show_info a st :
  a ≠ ABadMarker ->
  match current_time st with
  | None => pressure_data st = []
  | Some t =>
      ∃ tv, time_values st = tv ++ [t] ∧
            (td_time <$> pressure_data st) `sublist_of` tv
  end ->
  match current_time (exec show_info a st) with
  | None => pressure_data (exec show_info a st) = []
  | Some t =>
      ∃ tv, time_values (exec show_info a st) = tv ++ [t] ∧
            (td_time <$> pressure_data (exec show_info a st)) `sublist_of` tv
  end.
Proof.
  intros Ha Hs. destruct a; simpl; try done.
  - exists (time_values (commit st)). split; [done|].
    rewrite commit_time_values. unfold commit.
    destruct (current_time st) as [t0|] eqn:Ht.
    + destruct Hs as (tv & -> & Hsub).
      destruct (current_data st); simpl.
      * by apply sublist_inserts_r.
      * rewrite fmap_app. by apply sublist_app.
    + rewrite Hs. apply sublist_nil_l.
  - by rewrite add_values_current_time, add_values_pressure_data,
      add_values_time_values.
Qed.

(** X10: when every time-marker line of the report matches the pattern,
    the times of the committed time steps are, in commit order, times of
    the markers in file order with those of the time steps without cell
    block left out: a time step is never stored later on the time axis
    than its marker stands among the markers, and when as many time steps
    are committed as markers matched, the time step at index [t] is the
    one of marker [t]. *)
Theorem committed_steps_follow_markers property show_info lines :
  markers_ok lines = true ->
  let st := parse property show_info lines in
  (committed st).*1 `sublist_of` time_values st ∧
  (length (committed st) = length (time_values st) ->
   (committed st).*1 = time_values st).
Proof.
  intros Hm. cbn zeta.
  assert (Hinv :
    let s := scan property show_info init lines in
    match current_time s with
    | None => pressure_data s = []
    | Some t =>
        ∃ tv, time_values s = tv ++ [t] ∧
              (td_time <$> pressure_data s) `sublist_of` tv
    end).
  { apply (scan_invariant (fun s =>
      match current_time s with
      | None => pressure_data s = []
      | Some t =>
          ∃ tv, time_values s = tv ++ [t] ∧
                (td_time <$> pressure_data s) `sublist_of` tv
      end)); [|done].
    intros st raw Hin. apply exec_times_ordered.
    by eapply markers_ok_classify. }
  cbn zeta in Hinv.
  assert (Hsub : (committed (parse property show_info lines)).*1
                 `sublist_of` time_values (parse property show_info lines)).
  { rewrite parse_committed, parse_time_values.
    set (s := scan property show_info init lines) in *.
    unfold committed. rewrite <- list_fmap_compose.
    change (fst ∘ _) with td_time. unfold commit.
    destruct (current_time s) as [t|] eqn:Ht.
    - destruct Hinv as (tv & -> & Hsub).
      destruct (current_data s); simpl.
      + by apply sublist_inserts_r.
      + rewrite fmap_app. by apply sublist_app.
    - rewrite Hinv. apply sublist_nil_l. }
  split; [done|]. intros Hl. apply sublist_same_length; [done|].
  by rewrite length_fmap.
Qed.

(** ** What the two patterns read *)

Lemma append_assoc a b c : (a +:+ b) +:+ c = a +:+ (b +:+ c).
Proof.
  induction a as [|x a IH]; [done|].
  change (String x ((a +:+ b) +:+ c) = String x (a +:+ (b +:+ c))).
  by rewrite IH.
Qed.

Lemma append_nil_r a : a +:+ EmptyString = a.
Proof.
  induction a as [|x a IH]; [done|].
  change (String x (a +:+ EmptyString) = String x a). by rewrite IH.
Qed.

Lemma after_prefix p r : Str.after p (p +:+ r) = Some r.
Proof.
  induction p as [|a p IH]; [done|].
  change (String a p +:+ r) with (String a (p +:+ r)). simpl.
  by rewrite Ascii.eqb_refl.
Qed.

Lemma span_digits_app s : ∀ rest,
  Str.span Str.isdigit s = (s, EmptyString) ->
  Str.span Str.isdigit rest = (EmptyString, rest) ->
  Str.span Str.isdigit (s +:+ rest) = (s, rest).
Proof.
  induction s as [|c s IH]; intros rest Hs Hr; [done|].
  change (String c s +:+ rest) with (String c (s +:+ rest)).
  simpl in *. destruct (Str.isdigit c); [|done].
  destruct (Str.span Str.isdigit s) as [a b] eqn:Ha.
  injection Hs as -> ->. by rewrite (IH rest eq_refl Hr).
Qed.

Lemma string_of_uint_digits d :
  Str.span Str.isdigit (NilEmpty.string_of_uint d)
  = (NilEmpty.string_of_uint d, EmptyString).
Proof. induction d; simpl; [done|by rewrite IHd..]. Qed.

Lemma string_of_uint_int d : ∀ acc,
  Str.int_go acc (NilEmpty.string_of_uint d) = Nat.of_uint_acc d acc.
Proof.
  induction d; intros acc; simpl; [done|..];
    rewrite IHd; f_equal; rewrite Nat.tail_mul_spec; simpl; lia.
Qed.

Lemma str_nat_digits n :
  Str.span Str.isdigit (str_nat n) = (str_nat n, EmptyString).
Proof. apply string_of_uint_digits. Qed.

Lemma str_nat_int n : Str.int (str_nat n) = n.
Proof.
  unfold Str.int, str_nat. rewrite string_of_uint_int.
  apply DecimalNat.Unsigned.of_to.
Qed.

Lemma str_nat_nonempty n : Str.is_empty (str_nat n) = false.
Proof.
  unfold str_nat. destruct (Nat.to_uint n) eqn:Hn; try done.
  pose proof (DecimalNat.Unsigned.of_to n) as Hof. rewrite Hn in Hof.
  subst n. done.
Qed.

Lemma str_nat_app_nonempty n x : str_nat n +:+ x ≠ EmptyString.
Proof. pose proof (str_nat_nonempty n). by destruct (str_nat n). Qed.

Lemma rstrip_id s :
  Str.ends_with Str.isspace s = false -> Str.rstrip s = s.
Proof.
  induction s as [|c s IH]; [done|]. simpl.
  destruct s as [|c' s'].
  - simpl. by intros ->.
  - intros H. by rewrite IH.
Qed.

Lemma string_of_uint_ends d :
  Str.ends_with Str.isspace (NilEmpty.string_of_uint d) = false.
Proof.
  induction d; simpl; try done;
    by destruct (NilEmpty.string_of_uint d).
Qed.

(** X11: the header pattern reads back the indices written in decimal,
    whatever follows them on the line as long as it is not a digit; the
    line of a pair of indices is, for the parser, the header of that
    pair. *)
Theorem header_reads_back k j :
  (∀ tail,
     Str.span Str.isdigit tail = (EmptyString, tail) ->
     match_header (header_text k j +:+ tail) = Some (k, j))
  ∧ header (header_text k j) = Some (k, j).
Proof.
  assert (Hm : ∀ tail,
            Str.span Str.isdigit tail = (EmptyString, tail) ->
            match_header ("** K = " +:+ str_nat k +:+ ", J = "
                            +:+ str_nat j +:+ tail) = Some (k, j)).
  { intros tail Ht. unfold match_header. rewrite after_prefix.
    rewrite (span_digits_app (str_nat k) (", J = " +:+ str_nat j +:+ tail)
               (str_nat_digits k) eq_refl),
      str_nat_nonempty, after_prefix.
    rewrite (span_digits_app _ _ (str_nat_digits j) Ht), str_nat_nonempty.
    by rewrite !str_nat_int. }
  split.
  - intros tail Ht. unfold header_text. rewrite !append_assoc.
    by apply Hm.
  - unfold header.
    assert (Hs : Str.strip (header_text k j) = header_text k j).
    { unfold Str.strip.
      change (Str.lstrip (header_text k j)) with (header_text k j).
      apply rstrip_id. unfold header_text.
      rewrite (ends_with_app _ "** K = ") by apply str_nat_app_nonempty.
      rewrite (ends_with_app _ (str_nat k)) by done.
      rewrite (ends_with_app _ ", J = ").
      - apply string_of_uint_ends.
      - rewrite <- (append_nil_r (str_nat j)).
        apply str_nat_app_nonempty. }
    rewrite Hs.
    change (Str.startswith (header_text k j) "**  TIME =") with false.
    change (Str.startswith (header_text k j) "** K =") with true.
    cbn iota. specialize (Hm EmptyString eq_refl).
    by rewrite append_nil_r in Hm.
Qed.

(** X12: what the time-marker pattern reads.  After the marker text it
    takes an unsigned decimal number, with or without a fraction, then
    white space, then a label, and keeps the number as written and the
    label; a marker line that ends after the number, and one whose number
    does not start with a digit (a sign, a point), do not match. *)
Theorem time_marker_pattern ip label :
  Str.span Str.isdigit ip = (ip, EmptyString) -> Str.is_empty ip = false ->
  Str.span Str.isspace label = (EmptyString, label) ->
  Str.is_empty label = false ->
  Str.span not_newline label = (label, EmptyString) ->
  match_time ("**  TIME = " +:+ ip +:+ " " +:+ label) = Some (ip, label)
  ∧ (∀ fp,
       Str.span Str.isdigit fp = (fp, EmptyString) ->
       Str.is_empty fp = false ->
       match_time ("**  TIME = " +:+ ip +:+ "." +:+ fp +:+ " " +:+ label)
       = Some (ip +:+ "." +:+ fp, label))
  ∧ match_time ("**  TIME = " +:+ ip) = None
  ∧ (∀ rest,
       Str.span Str.isdigit rest = (EmptyString, rest) ->
       match_time ("**  TIME = " +:+ rest) = None).
Proof.
  intros Hip Hne Hsp Hl Hnl.
  assert (Htail : ∀ num : string,
    (let '(ws, r3) := Str.span Str.isspace (" " +:+ label) in
     if Str.is_empty ws then None
     else if Str.is_empty r3 then None
     else Some (num, (Str.span not_newline r3).1))
    = Some (num, label)).
  { intros num. change (" " +:+ label) with (String " " label).
    simpl. rewrite Hsp. simpl. by rewrite Hl, Hnl. }
  split_and!.
  - unfold match_time. rewrite after_prefix. unfold time_number.
    rewrite (span_digits_app ip (" " +:+ label) Hip eq_refl), Hne.
    change (" " +:+ label) with (String " " label) at 1.
    cbn iota. apply Htail.
  - intros fp Hfp Hfne. unfold match_time. rewrite after_prefix.
    unfold time_number.
    rewrite (span_digits_app ip ("." +:+ fp +:+ " " +:+ label) Hip eq_refl),
      Hne.
    change ("." +:+ fp +:+ " " +:+ label)
      with (String "." (fp +:+ " " +:+ label)) at 1.
    cbn iota.
    rewrite (span_digits_app fp (" " +:+ label) Hfp eq_refl), Hfne.
    apply Htail.
  - unfold match_time. rewrite <- (append_nil_r ip) at 1.
    rewrite after_prefix, append_nil_r. unfold time_number.
    rewrite Hip, Hne. by destruct ip.
  - intros rest Hr. unfold match_time. rewrite after_prefix.
    unfold time_number. by rewrite Hr.
Qed.

(** ** The first two stages *)



End CMG2npy.

Arguments shape {float_t} _.
Arguments item {float_t} _ _ _ _ _.
Arguments getslice {float_t} _ _ _ _.
Arguments cell_k {float_t} _.
Arguments cell_j {float_t} _.
Arguments cell_values {float_t} _.
Arguments CellData {float_t} _ _ _.
Arguments committed {float_t} _.
Arguments time_values {float_t} _.
Arguments pressure_data {float_t} _.
Arguments all_cells {float_t} _.
Arguments slice_of {float_t} _ _.
Arguments parse {float_t} _ _ _ _.
Arguments EvPrint {float_t} _.
Arguments EvMkdir {float_t} _.
Arguments EvSystem {float_t} _.
Arguments EvSave {float_t} _ _.
Arguments has_side_effect {float_t} _.
Arguments in_range {float_t} _ _ _.
Arguments fs_after {float_t} _ _.

(** ** The sample reports, run *)

Abbreviation sample_run report :=
  (CMG_rwo2npy Z 0%Z float_of_digits slash_join (sample_fs report)
     "d" "c" "PRES" false "results" false).

Abbreviation sample_parse report := (parse float_of_digits "PRES" false report).

Lemma sample_open report :
  fs_open (sample_fs report) (rwo_file_path slash_join "d" "c" "PRES")
  = Ok report.
Proof. reflexivity. Qed.

Example strip_ex : Str.strip "  ** K = 1, J = 2  " = "** K = 1, J = 2"%string.
Proof. reflexivity. Qed.

Example split_ex :
  Str.split " 1.5  2e3 x " = ["1.5"; "2e3"; "x"]%string.
Proof. reflexivity. Qed.

Example match_time_ex :
  match_time "**  TIME = 30.5   2020-JAN-31"
  = Some ("30.5", "2020-JAN-31")%string.
Proof. reflexivity. Qed.

Example match_time_no_label : match_time "**  TIME = 10" = None.
Proof. reflexivity. Qed.

Example match_header_ex : match_header "** K = 12, J = 3 tail" = Some (12, 3).
Proof. reflexivity. Qed.

Example two_steps_committed :
  committed (sample_parse report_two_steps)
  = [("0"%string, [CellData 1 1 [1; 2; 3]; CellData 2 1 [4; 5; 6]]%Z);
     ("31"%string, [CellData 1 1 [7; 8; 9]; CellData 2 1 [10; 11; 12]]%Z)].
Proof. vm_compute. reflexivity. Qed.

Example two_steps_array :
  match sample_run report_two_steps with
  | (Ok a, ev) =>
      shape a = (3, 1, 2, 2) ∧
      getslice a 0 0 0 = [1; 2; 3]%Z ∧ getslice a 0 1 0 = [4; 5; 6]%Z ∧
      getslice a 0 0 1 = [7; 8; 9]%Z ∧ getslice a 0 1 1 = [10; 11; 12]%Z ∧
      ev = [EvMkdir "results"]
  | _ => False
  end.
Proof. vm_compute. repeat split. Qed.

(** The dictionary committed at the marker without label is the one the
    next data line extends: both commits show the three values, and the
    second one has no place on the time axis. *)
Example bad_marker_committed :
  committed (sample_parse report_bad_marker)
  = [("0"%string, [CellData 1 1 [1; 2; 3]%Z]);
     ("0"%string, [CellData 1 1 [1; 2; 3]%Z])].
Proof. vm_compute. reflexivity. Qed.

Example bad_marker_run :
  sample_run report_bad_marker = (Raise IndexError, [EvMkdir "results"]).
Proof. vm_compute. reflexivity. Qed.

(** ** Counterexamples to the claims as stated *)

(** C2 as stated fails: with two time markers of which the first has no
    cell block the fourth axis has size 2 and one time step is committed. *)
Lemma n_time_is_not_committed_count :
  ¬ (∀ lines a ev,
       sample_run lines = (Ok a, ev) ->
       (shape a).2 = length (committed (sample_parse lines))).
Proof.
  intros H.
  destruct (sample_run report_empty_step) as [[a|e] ev] eqn:E.
  - specialize (H report_empty_step a ev E).
    vm_compute in E. injection E as <- <-. vm_compute in H. discriminate.
  - vm_compute in E. discriminate.
Qed.

(** C1 as stated fails: with the same K,J header twice in one time step
    the first cell block has as many values as the first axis, and the
    slice holds the values of the second. *)
Lemma overwritten_cell_block_not_read_back :
  ¬ (∀ lines a ev time_idx time cs p c,
       sample_run lines = (Ok a, ev) ->
       committed (sample_parse lines) !! time_idx = Some (time, cs) ->
       cs !! p = Some c ->
       length (cell_values c) = (shape a).1.1.1 ->
       getslice a (cell_j c - 1) (cell_k c - 1) time_idx = cell_values c).
Proof.
  intros H.
  destruct (sample_run report_twice) as [[a|e] ev] eqn:E.
  - specialize (H report_twice a ev 0 "0"%string
                  [CellData 1 1 [1; 2]; CellData 1 1 [3; 4]]%Z
                  0 (CellData 1 1 [1; 2]%Z) E).
    vm_compute in E. injection E as <- <-.
    specialize (H eq_refl eq_refl eq_refl). vm_compute in H. discriminate.
  - vm_compute in E. discriminate.
Qed.

(** C4 as stated fails: a cell block of three values, where the first axis
    has size 2, addresses a slice that an earlier cell block of the time
    step has filled; the slice is not zero. *)
Lemma mismatched_cell_block_slice_not_zero :
  ¬ (∀ lines a ev time_idx time cs p c,
       sample_run lines = (Ok a, ev) ->
       committed (sample_parse lines) !! time_idx = Some (time, cs) ->
       cs !! p = Some c ->
       length (cell_values c) ≠ (shape a).1.1.1 ->
       getslice a (cell_j c - 1) (cell_k c - 1) time_idx
       = replicate (shape a).1.1.1 0%Z).
Proof.
  intros H.
  destruct (sample_run report_mismatch) as [[a|e] ev] eqn:E.
  - specialize (H report_mismatch a ev 0 "0"%string
                  [CellData 1 1 [1; 2]; CellData 1 1 [3; 4; 5]]%Z
                  1 (CellData 1 1 [3; 4; 5]%Z) E).
    vm_compute in E. injection E as <- <-.
    specialize (H eq_refl eq_refl). vm_compute in H.
    assert (Hne : 3 ≠ 2) by lia. specialize (H Hne). discriminate.
  - vm_compute in E. discriminate.
Qed.

(** C7 as stated fails: without [is_save] the run on a report still
    creates the directory [results]. *)
Lemma directory_created_without_save :
  ¬ (∀ lines e, e ∈ (sample_run lines).2 -> has_side_effect e = false).
Proof.
  intros H. specialize (H report_two_steps (EvMkdir "results")).
  assert (Hin : EvMkdir "results" ∈ (sample_run report_two_steps).2).
  { vm_compute. by left. }
  specialize (H Hin). discriminate.
Qed.

(** C8 as stated fails: the first cell block met has no value and the
    first axis has the length of the second one. *)
Lemma first_cell_block_empty_not_n_i :
  ¬ (∀ lines a ev c cs,
       sample_run lines = (Ok a, ev) ->
       all_cells (sample_parse lines) = c :: cs ->
       (shape a).1.1.1 = length (cell_values c)).
Proof.
  intros H.
  destruct (sample_run report_first_empty) as [[a|e] ev] eqn:E.
  - specialize (H report_first_empty a ev (CellData 1 1 [])
                  [CellData 2 1 [1; 2; 3]%Z] E).
    vm_compute in E. injection E as <- <-.
    specialize (H eq_refl). vm_compute in H. discriminate.
  - vm_compute in E. discriminate.
Qed.

(** ** The unsupported version, run *)

(** C6: with the request directory and file present and a version that is
    not the supported one, [run_CMG_rwd_report] prints that the version is
    not implemented, launches nothing, and raises UnboundLocalError at the
    command line, whose [cd_path] and [exe_path] were never bound. *)
Theorem unsupported_version_raises :
  run_CMG_rwd_report Z slash_join (sample_fs []) "d" "c" "ese-ts2win-v2023.10"
  = (Raise UnboundLocalError,
     [EvPrint (MsgNotImplemented "ese-ts2win-v2023.10")]).
Proof. by apply run_CMG_rwd_report_unsupported. Qed.

(** ** The theorems at the sample reports *)

Lemma n_time_counts_time_markers_witness :
  match sample_run report_empty_step with
  | (Ok a, _) => (shape a).2 = 2
  | _ => False
  end.
Proof.
  destruct (sample_run report_empty_step) as [[a|e] ev] eqn:E.
  - exact (n_time_counts_time_markers Z 0%Z float_of_digits slash_join
             (sample_fs report_empty_step) "d" "c" "PRES" false "results"
             false report_empty_step a ev (sample_open _) E).
  - vm_compute in E. discriminate.
Defined.

Lemma well_formed_n_time_witness :
  length (time_values (sample_parse report_two_steps))
  = length (filter (fun raw => marker_line raw = true) report_two_steps)
  ∧ ∃ a ev,
      sample_run report_two_steps = (Ok a, ev) ∧
      (shape a).2
      = length (filter (fun raw => marker_line raw = true) report_two_steps).
Proof.
  destruct (well_formed_n_time Z 0%Z float_of_digits slash_join
              (sample_fs report_two_steps) "d" "c" "PRES" false "results"
              false report_two_steps (sample_open _)) as [Hp Hr].
  - split; reflexivity.
  - split; [exact Hp|].
    destruct Hr as (a & ev & Hrun & Hn & _).
    + exists ["RESULTS SIMULATOR GEM"%string],
        "**  TIME = 0 2020-JAN-01"%string, [], "** K = 1, J = 1"%string,
        ["1 2 3"; "** K = 2, J = 1"; "4 5 6"; "**  TIME = 31 2020-FEB-01";
         "** K = 1, J = 1"; "7 8 9"; "** K = 2, J = 1"; "10 11"; "12"]%string.
      split; [reflexivity|]. split; [reflexivity|].
      exists (1, 1). reflexivity.
    + exists a, ev. split; [exact Hrun|exact Hn].
Defined.

Lemma no_header_raises_witness :
  ∃ out,
    sample_run ["**  TIME = 0 2020-JAN-01"; "1 2 3"]%string
    = (Raise ValueError, EvMkdir "results" :: (EvPrint <$> out)).
Proof.
  apply (no_header_raises Z 0%Z float_of_digits slash_join
           (sample_fs ["**  TIME = 0 2020-JAN-01"; "1 2 3"]%string)
           "d" "c" "PRES" false "results" false _ (sample_open _)).
  repeat constructor.
Defined.

Lemma n_i_is_first_populated_length_witness :
  match sample_run report_first_empty with
  | (Ok a, _) => (shape a).1.1.1 = 3
  | _ => False
  end.
Proof.
  destruct (sample_run report_first_empty) as [[a|e] ev] eqn:E.
  - exact (n_i_is_first_populated_length Z 0%Z float_of_digits slash_join
             (sample_fs report_first_empty) "d" "c" "PRES" false "results"
             false report_first_empty a ev (sample_open _) E).
  - vm_compute in E. discriminate.
Defined.

Lemma matching_cell_block_read_back_witness :
  match sample_run report_two_steps with
  | (Ok a, _) => getslice a 0 0 1 = [7; 8; 9]%Z
  | _ => False
  end.
Proof.
  destruct (sample_run report_two_steps) as [[a|e] ev] eqn:E;
    [|vm_compute in E; discriminate].
  destruct (matching_cell_block_read_back Z 0%Z float_of_digits slash_join
              (sample_fs report_two_steps) "d" "c" "PRES" false "results"
              false report_two_steps a ev 1 "31"%string
              [CellData 1 1 [7; 8; 9]; CellData 2 1 [10; 11; 12]]%Z
              0 (CellData 1 1 [7; 8; 9]%Z) (sample_open _) E)
    as (j' & k' & _ & Hj & Hk & _ & Hs).
  - vm_compute. reflexivity.
  - reflexivity.
  - pose proof E as E'. vm_compute in E'. injection E' as <- _. reflexivity.
  - pose proof E as E'. vm_compute in E'. injection E' as <- _.
    intros [|[|q]] c' Hq Hc' _; [lia| |discriminate].
    injection Hc' as <-. vm_compute. discriminate.
  - simpl in Hj, Hk. rewrite (Hj (le_n 1)), (Hk (le_n 1)) in Hs. exact Hs.
Defined.

Lemma mismatched_cell_block_skipped_witness :
  match sample_run report_mismatch with
  | (Ok a, ev) =>
      EvPrint (MsgWarning 2 3 1 1 "0") ∈ ev ∧
      fill Z 0%Z 2 0
        [("0"%string, [CellData 1 1 [1; 2]%Z])] (Ok (zeros Z 0%Z (shape a)), [])
      = (Ok a, [])
  | _ => False
  end.
Proof.
  destruct (sample_run report_mismatch) as [[a|e] ev] eqn:E;
    [|vm_compute in E; discriminate].
  pose proof E as E'. vm_compute in E'. injection E' as <- <-.
  destruct (mismatched_cell_block_skipped Z 0%Z float_of_digits slash_join
              (sample_fs report_mismatch) "d" "c" "PRES" false "results"
              false report_mismatch _ _ 0 "0"%string
              [CellData 1 1 [1; 2]; CellData 1 1 [3; 4; 5]]%Z
              1 (CellData 1 1 [3; 4; 5]%Z) (sample_open _) E)
    as (Hw & _ & Hf & _).
  - vm_compute. reflexivity.
  - reflexivity.
  - simpl. lia.
  - split; [exact Hw|]. vm_compute. reflexivity.
Defined.

Lemma not_found_before_any_effect_witness :
  generate_CMG_rwd Z slash_join empty_fs "d" "c" "PRES" false 4
  = (Raise FileNotFoundError, [])
  ∧ run_CMG_rwd_report Z slash_join empty_fs "d" "c" "ese-ts2win-v2024.20"
    = (Raise FileNotFoundError, [])
  ∧ CMG_rwo2npy Z 0%Z float_of_digits slash_join empty_fs "d" "c" "PRES"
      true "results" false
    = (Raise FileNotFoundError, []).
Proof.
  destruct (not_found_before_any_effect Z 0%Z float_of_digits slash_join
              empty_fs "d" "c" "PRES") as (Hg & Hr & Hc).
  split; [|split].
  - apply Hg. left. reflexivity.
  - apply Hr. left. reflexivity.
  - apply Hc. left. split; [|reflexivity]. intros d f Hex. discriminate.
Defined.

Lemma save_directory_always_array_on_request_witness :
  match CMG_rwo2npy Z 0%Z float_of_digits slash_join
          (sample_fs report_two_steps) "d" "c" "PRES" true "results" false
  with
  | (Ok a, ev) => last ev = Some (EvSave "results/c_PRES.npy" a)
  | _ => False
  end.
Proof.
  pose proof (save_directory_always_array_on_request Z 0%Z float_of_digits
                slash_join (sample_fs report_two_steps) "d" "c" "PRES" true
                "results" false) as [_ H].
  cbn zeta in H.
  destruct (CMG_rwo2npy Z 0%Z float_of_digits slash_join
              (sample_fs report_two_steps) "d" "c" "PRES" true "results"
              false) as [[a|e] ev] eqn:E.
  - exact (H a eq_refl).
  - vm_compute in E. discriminate.
Defined.

Lemma data_line_extends_open_cell_block_witness :
  sample_run ["**  TIME = 0 2020-JAN-01"; "9 9"; "** K = 1, J = 1"; "1 2"]%string
  = sample_run ["**  TIME = 0 2020-JAN-01"; "** K = 1, J = 1"; "1 2"]%string.
Proof.
  destruct (data_line_extends_open_cell_block Z 0%Z float_of_digits
              slash_join "PRES" false) as (_ & _ & _ & H).
  apply (H (sample_fs _) (sample_fs _) "d" "c" false "results"
           ["**  TIME = 0 2020-JAN-01"%string] "9 9"%string
           ["** K = 1, J = 1"; "1 2"]%string).
  - exists [9; 9]%Z. reflexivity.
  - left. exists [], "**  TIME = 0 2020-JAN-01"%string, [].
    split; [reflexivity|]. split; [reflexivity|constructor].
  - reflexivity.
  - reflexivity.
Defined.


(** ** The further properties, at the sample reports *)

Lemma n_j_n_k_are_largest_indices_witness :
  match sample_run report_two_steps with
  | (Ok a, _) =>
      let cs := all_cells (sample_parse report_two_steps) in
      (∀ c, c ∈ cs -> cell_j c <= (shape a).1.1.2 ∧ cell_k c <= (shape a).1.2)
      ∧ (∃ c, c ∈ cs ∧ cell_j c = (shape a).1.1.2)
      ∧ (∃ c, c ∈ cs ∧ cell_k c = (shape a).1.2)
  | _ => False
  end.
Proof.
  destruct (sample_run report_two_steps) as [[a|e] ev] eqn:E.
  - exact (n_j_n_k_are_largest_indices Z 0%Z float_of_digits slash_join
             (sample_fs report_two_steps) "d" "c" "PRES" false "results"
             false report_two_steps a ev (sample_open _) E).
  - vm_compute in E. discriminate.
Defined.

Lemma unaddressed_slice_is_zero_witness :
  match sample_run report_first_empty with
  | (Ok a, _) => getslice a 0 0 0 = [0; 0; 0]%Z
  | _ => False
  end.
Proof.
  destruct (sample_run report_first_empty) as [[a|e] ev] eqn:E;
    [|vm_compute in E; discriminate].
  pose proof (unaddressed_slice_is_zero Z 0%Z float_of_digits slash_join
                (sample_fs report_first_empty) "d" "c" "PRES" false
                "results" false report_first_empty a ev 0 0 0
                (sample_open _) E) as H.
  pose proof E as E'. vm_compute in E'. injection E' as <- _.
  apply H. intros time cs c Hc Hin Hlen.
  vm_compute in Hc. injection Hc as <- <-.
  apply list_elem_of_In in Hin. destruct Hin as [<-|[<-|[]]].
  - vm_compute in Hlen. discriminate.
  - vm_compute. discriminate.
Defined.


Lemma unread_line_changes_nothing_witness :
  sample_run report_bad_token
  = sample_run ["**  TIME = 0 2020-JAN-01"; "** K = 1, J = 1"; "3 4"]%string.
Proof.
  apply (unread_line_changes_nothing Z 0%Z float_of_digits slash_join
           (sample_fs _) (sample_fs _) "d" "c" "PRES" false "results" false
           ["**  TIME = 0 2020-JAN-01"; "** K = 1, J = 1"]%string
           "1 2 x"%string ["3 4"]%string).
  - right. split; [reflexivity|]. split; [reflexivity|].
    right. right. reflexivity.
  - reflexivity.
  - reflexivity.
Defined.

Lemma single_cell_block_report_witness :
  ∃ a ev,
    sample_run report_one_block = (Ok a, ev) ∧
    shape a = (3, 1, 2, 1) ∧
    getslice a 0 1 0 = [1; 2; 3]%Z ∧
    ∀ j0 k0 t0, (j0, k0, t0) ≠ (0, 1, 0) ->
      getslice a j0 k0 t0 = [0; 0; 0]%Z.
Proof.
  apply (single_cell_block_report Z 0%Z float_of_digits slash_join
           (sample_fs report_one_block) "d" "c" "PRES" false "results" false
           "**  TIME = 0 2020-JAN-01"%string "** K = 2, J = 1"%string
           ["1 2"; "3"]%string 2 1 [[1; 2]; [3]]%Z).
  - reflexivity.
  - reflexivity.
  - reflexivity.
  - lia.
  - lia.
  - repeat constructor.
Defined.

Lemma marker_without_label_raises_witness :
  (∃ t,
     committed (sample_parse report_bad_marker)
     = [(t, [CellData 1 1 [1; 2; 3]%Z]); (t, [CellData 1 1 [1; 2; 3]%Z])]) ∧
  (sample_run report_bad_marker).1 = Raise IndexError.
Proof.
  apply (marker_without_label_raises Z 0%Z float_of_digits slash_join
           (sample_fs report_bad_marker) "d" "c" "PRES" false "results" false
           "**  TIME = 0 2020-JAN-01"%string "** K = 1, J = 1"%string
           ["1 2"%string] "**  TIME = 31"%string ["3"%string] 1 1
           [[1; 2]%Z] [[3]%Z]).
  - reflexivity.
  - reflexivity.
  - reflexivity.
  - repeat constructor.
  - reflexivity.
  - reflexivity.
  - repeat constructor.
Defined.

Lemma lines_before_first_marker_are_dropped_witness :
  (sample_run ["RESULTS SIMULATOR GEM"; "** K = 3, J = 3"; "9 9"]%string).1
  = Raise ValueError
  ∧ sample_run report_early_block
    = sample_run ["**  TIME = 0 2020-JAN-01"; "** K = 1, J = 1"; "1 2"]%string.
Proof.
  destruct (lines_before_first_marker_are_dropped Z 0%Z float_of_digits
              slash_join "d" "c" "PRES" false "results" false
              ["RESULTS SIMULATOR GEM"; "** K = 3, J = 3"; "9 9"]%string)
    as [Hnone Hdrop].
  - repeat constructor.
  - split.
    + apply Hnone. reflexivity.
    + apply (Hdrop (sample_fs _) (sample_fs _)
               "**  TIME = 0 2020-JAN-01"%string
               ["** K = 1, J = 1"; "1 2"]%string); reflexivity.
Defined.

Lemma committed_steps_follow_markers_witness :
  (committed (sample_parse report_empty_step)).*1
    `sublist_of` time_values (sample_parse report_empty_step).
Proof.
  apply (committed_steps_follow_markers Z float_of_digits "PRES" false
           report_empty_step).
  reflexivity.
Defined.

Lemma header_reads_back_witness :
  match_header (header_text 12 3 +:+ " tail") = Some (12, 3)
  ∧ header (header_text 12 3) = Some (12, 3).
Proof.
  destruct (header_reads_back 12 3) as [Htail Hline].
  split; [apply Htail; reflexivity|exact Hline].
Defined.

Lemma time_marker_pattern_witness :
  match_time ("**  TIME = " +:+ "30" +:+ " " +:+ "2020-JAN-31")
  = Some ("30", "2020-JAN-31")%string
  ∧ match_time ("**  TIME = " +:+ "30" +:+ "." +:+ "5" +:+ " " +:+ "2020-JAN-31")
    = Some ("30" +:+ "." +:+ "5", "2020-JAN-31"%string)
  ∧ match_time ("**  TIME = " +:+ "-30 2020-JAN-31") = None.
Proof.
  destruct (time_marker_pattern "30" "2020-JAN-31")
    as (Hint & Hfrac & _ & Hsign); try reflexivity.
  split; [exact Hint|]. split.
  - apply Hfrac; reflexivity.
  - apply Hsign. reflexivity.
Defined.

